(** * HexStrike error handler: classification, recovery selection,
      parameter adjustment, tool substitution and the incident ledger.

    A shallow embedding of [core/error_handler.py].  Conventions:

    - Python [str] is [string] (a sequence of 8-bit characters); [str.lower]
      and [re.IGNORECASE] act on the ASCII letters, every other character is
      left alone.
    - Python [dict] used as a finite map is [gmap]; a [dict] whose iteration
      order is observed (the pattern table) is an association list in the
      declared order.
    - Python [int] is [Z].  The [float] fields of a strategy are kept as
      the rationals their decimal literals spell.  The score is given two
      readings: an exact one in [Q], used where the catalog is evaluated,
      and one in IEEE 754 double precision ([Double]), with rounding, the
      [pow] of the C library as a parameter and [OverflowError]; from the
      first attempt on, and for a [pow] accurate to one unit in the last
      place, the two agree on every decision over the declared catalog
      ([handle_tool_failure_exact]).
    - [datetime] values are [Z] microseconds; the clock is an explicit
      argument. *)

From Stdlib Require Import ZArith QArith Qpower String Ascii List Bool Lia.
From Stdlib Require Import SpecFloat.
From Stdlib Require Import Sorted Permutation.
From stdpp Require Import gmap strings list fin_maps.

Local Open Scope string_scope.
Local Open Scope Z_scope.

(* ===================================================================== *)
(** ** Error types and recovery actions                                   *)
(* ===================================================================== *)

Inductive ErrorType : Type :=
  | TIMEOUT
  | PERMISSION_DENIED
  | NETWORK_UNREACHABLE
  | RATE_LIMITED
  | TOOL_NOT_FOUND
  | INVALID_PARAMETERS
  | RESOURCE_EXHAUSTED
  | AUTHENTICATION_FAILED
  | TARGET_UNREACHABLE
  | PARSING_ERROR
  | UNKNOWN.

#[global] Instance ErrorType_eq_dec : EqDecision ErrorType.
Proof. solve_decision. Defined.

(** [ErrorType.value] *)
Definition ErrorType_value (e : ErrorType) : string :=
  match e with
  | TIMEOUT => "timeout"
  | PERMISSION_DENIED => "permission_denied"
  | NETWORK_UNREACHABLE => "network_unreachable"
  | RATE_LIMITED => "rate_limited"
  | TOOL_NOT_FOUND => "tool_not_found"
  | INVALID_PARAMETERS => "invalid_parameters"
  | RESOURCE_EXHAUSTED => "resource_exhausted"
  | AUTHENTICATION_FAILED => "authentication_failed"
  | TARGET_UNREACHABLE => "target_unreachable"
  | PARSING_ERROR => "parsing_error"
  | UNKNOWN => "unknown"
  end.

Inductive RecoveryAction : Type :=
  | RETRY_WITH_BACKOFF
  | RETRY_WITH_REDUCED_SCOPE
  | SWITCH_TO_ALTERNATIVE_TOOL
  | ADJUST_PARAMETERS
  | ESCALATE_TO_HUMAN
  | GRACEFUL_DEGRADATION
  | ABORT_OPERATION.

#[global] Instance RecoveryAction_eq_dec : EqDecision RecoveryAction.
Proof. solve_decision. Defined.

(** The values stored in the [Dict[str, Any]] maps of the module: strings,
    booleans and integers. *)
Inductive pyval : Type :=
  | VStr (s : string)
  | VBool (b : bool)
  | VInt (n : Z).

#[global] Instance pyval_eq_dec : EqDecision pyval.
Proof. solve_decision. Defined.

(** Python truthiness of the result of [dict.get(key)]: a missing key gives
    [None], which is false. *)
Definition truthy (v : option pyval) : bool :=
  match v with
  | None => false
  | Some (VStr s) => negb (String.eqb s "")
  | Some (VBool b) => b
  | Some (VInt n) => negb (n =? 0)
  end.

(* ===================================================================== *)
(** ** Strings: [str.lower] and [re.search(_, _, re.IGNORECASE)]          *)
(* ===================================================================== *)

Definition is_upper (c : ascii) : bool :=
  ((65 <=? N_of_ascii c) && (N_of_ascii c <=? 90))%N.

Definition lower_char (c : ascii) : ascii :=
  if is_upper c then ascii_of_N (N_of_ascii c + 32) else c.

(** [str.lower] *)
Fixpoint lower (s : string) : string :=
  match s with
  | EmptyString => EmptyString
  | String c s' => String (lower_char c) (lower s')
  end.

(** Does the literal [p] match at the start of [s], letter case ignored? *)
Fixpoint match_here (p s : string) : bool :=
  match p, s with
  | EmptyString, _ => true
  | String _ _, EmptyString => false
  | String a p', String b s' =>
      Ascii.eqb (lower_char a) (lower_char b) && match_here p' s'
  end.

(** Does the literal [p] match somewhere in [s], letter case ignored? *)
Fixpoint search_literal (p s : string) : bool :=
  match_here p s
  || match s with
     | EmptyString => false
     | String _ s' => search_literal p s'
     end.

(** The branches of a pattern [a|b|c]. *)
Fixpoint alternatives (pattern : string) : list string :=
  match pattern with
  | EmptyString => [EmptyString]
  | String c rest =>
      if Ascii.eqb c "|" then EmptyString :: alternatives rest
      else match alternatives rest with
           | alt :: alts => String c alt :: alts
           | [] => [String c EmptyString]
           end
  end.

(** [bool(re.search(pattern, text, re.IGNORECASE))] for a pattern that is an
    alternation of literals, which is what every entry of the pattern table
    is (see [error_patterns_literal]). *)
Definition re_search_ignorecase (pattern text : string) : bool :=
  existsb (fun alt => search_literal alt text) (alternatives pattern).

(** The characters with a meaning of their own in a regular expression,
    the bar apart. *)
Definition is_metachar (c : ascii) : bool :=
  existsb (Ascii.eqb c)
    (list_ascii_of_string ".^$*+?{}[]\()").

Fixpoint literal_alternation (pattern : string) : bool :=
  match pattern with
  | EmptyString => true
  | String c rest => negb (is_metachar c) && literal_alternation rest
  end.

(* ===================================================================== *)
(** ** The classifier                                                     *)
(* ===================================================================== *)

(** [_initialize_error_patterns]: the dict in its insertion order, which is
    the order [.items()] yields. *)
Definition error_patterns : list (string * ErrorType) :=
  [ ("timeout|timed out|connection timeout|read timeout", TIMEOUT);
    ("operation timed out|command timeout", TIMEOUT);
    ("permission denied|access denied|forbidden|not authorized", PERMISSION_DENIED);
    ("sudo required|root required|insufficient privileges", PERMISSION_DENIED);
    ("network unreachable|host unreachable|no route to host", NETWORK_UNREACHABLE);
    ("connection refused|connection reset|network error", NETWORK_UNREACHABLE);
    ("rate limit|too many requests|throttled|429", RATE_LIMITED);
    ("request limit exceeded|quota exceeded", RATE_LIMITED);
    ("command not found|no such file or directory|not found", TOOL_NOT_FOUND);
    ("executable not found|binary not found", TOOL_NOT_FOUND);
    ("invalid argument|invalid option|unknown option", INVALID_PARAMETERS);
    ("bad parameter|invalid parameter|syntax error", INVALID_PARAMETERS);
    ("out of memory|memory error|disk full|no space left", RESOURCE_EXHAUSTED);
    ("resource temporarily unavailable|too many open files", RESOURCE_EXHAUSTED);
    ("authentication failed|login failed|invalid credentials", AUTHENTICATION_FAILED);
    ("unauthorized|invalid token|expired token", AUTHENTICATION_FAILED);
    ("target unreachable|target not responding|target down", TARGET_UNREACHABLE);
    ("host not found|dns resolution failed", TARGET_UNREACHABLE);
    ("parse error|parsing failed|invalid format|malformed", PARSING_ERROR);
    ("json decode error|xml parse error|invalid json", PARSING_ERROR) ].

(** What the handler observes of an exception object: its [str()] and the
    outcome of the four [isinstance] tests.  (An exception object is
    truthy.) *)
Record PyException : Type := mkException {
  exception_str : string;
  is_TimeoutError : bool;
  is_PermissionError : bool;
  is_ConnectionError : bool;
  is_FileNotFoundError : bool
}.

(** The [if exception: if isinstance ... elif ...] chain: [Some k] when it
    returns [k], [None] when control falls through to the pattern loop. *)
Definition check_exception_type (exception : option PyException)
  : option ErrorType :=
  match exception with
  | None => None
  | Some e =>
      if is_TimeoutError e then Some TIMEOUT
      else if is_PermissionError e then Some PERMISSION_DENIED
      else if is_ConnectionError e then Some NETWORK_UNREACHABLE
      else if is_FileNotFoundError e then Some TOOL_NOT_FOUND
      else None
  end.

(** The loop [for pattern, error_type in items: if re.search(...): return
    error_type], followed by [return ErrorType.UNKNOWN]. *)
Fixpoint check_error_patterns (items : list (string * ErrorType))
    (error_text : string) : ErrorType :=
  match items with
  | [] => UNKNOWN
  | (pattern, error_type) :: rest =>
      if re_search_ignorecase pattern error_text then error_type
      else check_error_patterns rest error_text
  end.

Definition classify_error (error_message : string)
    (exception : option PyException) : ErrorType :=
  let error_text := lower error_message in
  match check_exception_type exception with
  | Some error_type => error_type
  | None => check_error_patterns error_patterns error_text
  end.

(* ===================================================================== *)
(** ** Contexts, strategies and the static tables                         *)
(* ===================================================================== *)

#[warnings="-register-all"]
Inductive ErrorContext : Type := mkErrorContext {
  tool_name : string;
  target : string;
  parameters : gmap string pyval;
  error_type : ErrorType;
  error_message : string;
  attempt_count : Z;
  timestamp : Z;
  stack_trace : string;
  system_resources : gmap string pyval;
  previous_errors : list ErrorContext
}.

Record RecoveryStrategy : Type := mkRecoveryStrategy {
  action : RecoveryAction;
  strategy_parameters : gmap string pyval;
  max_attempts : Z;
  backoff_multiplier : Q;
  success_probability : Q;
  estimated_time : Z
}.

(** [d.get(k)] on a dict written as the list of its items. *)
Fixpoint dict_get {K V : Type} `{EqDecision K} (d : list (K * V)) (k : K)
  : option V :=
  match d with
  | [] => None
  | (k', v) :: rest => if decide (k' = k) then Some v else dict_get rest k
  end.

(** [_initialize_recovery_strategies] *)
Definition recovery_strategies : list (ErrorType * list RecoveryStrategy) :=
  [ (TIMEOUT,
      [ mkRecoveryStrategy RETRY_WITH_BACKOFF
          {[ "initial_delay" := VInt 5; "max_delay" := VInt 60 ]}
          3 2 (7#10) 30;
        mkRecoveryStrategy RETRY_WITH_REDUCED_SCOPE
          {[ "reduce_threads" := VBool true; "reduce_timeout" := VBool true ]}
          2 1 (8#10) 45;
        mkRecoveryStrategy SWITCH_TO_ALTERNATIVE_TOOL
          {[ "prefer_faster_tools" := VBool true ]}
          1 1 (6#10) 60 ]);
    (PERMISSION_DENIED,
      [ mkRecoveryStrategy ESCALATE_TO_HUMAN
          {[ "message" := VStr "Privilege escalation required";
             "urgency" := VStr "medium" ]}
          1 1 (9#10) 300;
        mkRecoveryStrategy SWITCH_TO_ALTERNATIVE_TOOL
          {[ "require_no_privileges" := VBool true ]}
          1 1 (5#10) 30 ]);
    (NETWORK_UNREACHABLE,
      [ mkRecoveryStrategy RETRY_WITH_BACKOFF
          {[ "initial_delay" := VInt 10; "max_delay" := VInt 120 ]}
          3 2 (6#10) 60;
        mkRecoveryStrategy SWITCH_TO_ALTERNATIVE_TOOL
          {[ "prefer_offline_tools" := VBool true ]}
          1 1 (4#10) 30 ]);
    (RATE_LIMITED,
      [ mkRecoveryStrategy RETRY_WITH_BACKOFF
          {[ "initial_delay" := VInt 30; "max_delay" := VInt 300 ]}
          5 (3#2) (9#10) 180;
        mkRecoveryStrategy ADJUST_PARAMETERS
          {[ "reduce_rate" := VBool true; "increase_delays" := VBool true ]}
          2 1 (8#10) 120 ]);
    (TOOL_NOT_FOUND,
      [ mkRecoveryStrategy SWITCH_TO_ALTERNATIVE_TOOL
          {[ "find_equivalent" := VBool true ]}
          1 1 (7#10) 15;
        mkRecoveryStrategy ESCALATE_TO_HUMAN
          {[ "message" := VStr "Tool installation required";
             "urgency" := VStr "low" ]}
          1 1 (9#10) 600 ]);
    (INVALID_PARAMETERS,
      [ mkRecoveryStrategy ADJUST_PARAMETERS
          {[ "use_defaults" := VBool true; "remove_invalid" := VBool true ]}
          3 1 (8#10) 10;
        mkRecoveryStrategy SWITCH_TO_ALTERNATIVE_TOOL
          {[ "simpler_interface" := VBool true ]}
          1 1 (6#10) 30 ]);
    (RESOURCE_EXHAUSTED,
      [ mkRecoveryStrategy RETRY_WITH_REDUCED_SCOPE
          {[ "reduce_memory" := VBool true; "reduce_threads" := VBool true ]}
          2 1 (7#10) 60;
        mkRecoveryStrategy RETRY_WITH_BACKOFF
          {[ "initial_delay" := VInt 60; "max_delay" := VInt 300 ]}
          2 2 (5#10) 180 ]);
    (AUTHENTICATION_FAILED,
      [ mkRecoveryStrategy ESCALATE_TO_HUMAN
          {[ "message" := VStr "Authentication credentials required";
             "urgency" := VStr "high" ]}
          1 1 (9#10) 300;
        mkRecoveryStrategy SWITCH_TO_ALTERNATIVE_TOOL
          {[ "no_auth_required" := VBool true ]}
          1 1 (4#10) 30 ]);
    (TARGET_UNREACHABLE,
      [ mkRecoveryStrategy RETRY_WITH_BACKOFF
          {[ "initial_delay" := VInt 15; "max_delay" := VInt 180 ]}
          3 2 (6#10) 90;
        mkRecoveryStrategy GRACEFUL_DEGRADATION
          {[ "skip_target" := VBool true; "continue_with_others" := VBool true ]}
          1 1 1 5 ]);
    (PARSING_ERROR,
      [ mkRecoveryStrategy ADJUST_PARAMETERS
          {[ "change_output_format" := VBool true;
             "add_parsing_flags" := VBool true ]}
          2 1 (7#10) 20;
        mkRecoveryStrategy SWITCH_TO_ALTERNATIVE_TOOL
          {[ "better_output_format" := VBool true ]}
          1 1 (6#10) 30 ]);
    (UNKNOWN,
      [ mkRecoveryStrategy RETRY_WITH_BACKOFF
          {[ "initial_delay" := VInt 5; "max_delay" := VInt 30 ]}
          2 2 (3#10) 45;
        mkRecoveryStrategy ESCALATE_TO_HUMAN
          {[ "message" := VStr "Unknown error encountered";
             "urgency" := VStr "medium" ]}
          1 1 (9#10) 300 ]) ].

(** [_initialize_tool_alternatives] *)
Definition tool_alternatives : list (string * list string) :=
  [ ("nmap", ["rustscan"; "masscan"; "zmap"]);
    ("rustscan", ["nmap"; "masscan"]);
    ("masscan", ["nmap"; "rustscan"; "zmap"]);
    ("gobuster", ["feroxbuster"; "dirsearch"; "ffuf"; "dirb"]);
    ("feroxbuster", ["gobuster"; "dirsearch"; "ffuf"]);
    ("dirsearch", ["gobuster"; "feroxbuster"; "ffuf"]);
    ("ffuf", ["gobuster"; "feroxbuster"; "dirsearch"]);
    ("nuclei", ["jaeles"; "nikto"; "w3af"]);
    ("jaeles", ["nuclei"; "nikto"]);
    ("nikto", ["nuclei"; "jaeles"; "w3af"]);
    ("katana", ["gau"; "waybackurls"; "hakrawler"]);
    ("gau", ["katana"; "waybackurls"; "hakrawler"]);
    ("waybackurls", ["gau"; "katana"; "hakrawler"]);
    ("arjun", ["paramspider"; "x8"; "ffuf"]);
    ("paramspider", ["arjun"; "x8"]);
    ("x8", ["arjun"; "paramspider"]);
    ("sqlmap", ["sqlninja"; "jsql-injection"]);
    ("dalfox", ["xsser"; "xsstrike"]);
    ("subfinder", ["amass"; "assetfinder"; "findomain"]);
    ("amass", ["subfinder"; "assetfinder"; "findomain"]);
    ("assetfinder", ["subfinder"; "amass"; "findomain"]);
    ("prowler", ["scout-suite"; "cloudmapper"]);
    ("scout-suite", ["prowler"; "cloudmapper"]);
    ("trivy", ["clair"; "docker-bench-security"]);
    ("clair", ["trivy"; "docker-bench-security"]);
    ("ghidra", ["radare2"; "ida"; "binary-ninja"]);
    ("radare2", ["ghidra"; "objdump"; "gdb"]);
    ("gdb", ["radare2"; "lldb"]);
    ("pwntools", ["ropper"; "ropgadget"]);
    ("ropper", ["ropgadget"; "pwntools"]);
    ("ropgadget", ["ropper"; "pwntools"]) ].

(** [_initialize_parameter_adjustments] *)
Definition parameter_adjustments
  : list (string * list (ErrorType * gmap string pyval)) :=
  [ ("nmap",
      [ (TIMEOUT, {[ "timing" := VStr "-T2"; "reduce_ports" := VBool true ]});
        (RATE_LIMITED, {[ "timing" := VStr "-T1"; "delay" := VStr "1000ms" ]});
        (RESOURCE_EXHAUSTED, {[ "max_parallelism" := VStr "10" ]}) ]);
    ("gobuster",
      [ (TIMEOUT, {[ "threads" := VStr "10"; "timeout" := VStr "30s" ]});
        (RATE_LIMITED, {[ "threads" := VStr "5"; "delay" := VStr "1s" ]});
        (RESOURCE_EXHAUSTED, {[ "threads" := VStr "5" ]}) ]);
    ("nuclei",
      [ (TIMEOUT, {[ "concurrency" := VStr "10"; "timeout" := VStr "30" ]});
        (RATE_LIMITED, {[ "rate-limit" := VStr "10"; "concurrency" := VStr "5" ]});
        (RESOURCE_EXHAUSTED, {[ "concurrency" := VStr "5" ]}) ]);
    ("feroxbuster",
      [ (TIMEOUT, {[ "threads" := VStr "10"; "timeout" := VStr "30" ]});
        (RATE_LIMITED, {[ "threads" := VStr "5"; "rate-limit" := VStr "10" ]});
        (RESOURCE_EXHAUSTED, {[ "threads" := VStr "5" ]}) ]);
    ("ffuf",
      [ (TIMEOUT, {[ "threads" := VStr "10"; "timeout" := VStr "30" ]});
        (RATE_LIMITED, {[ "threads" := VStr "5"; "rate" := VStr "10" ]});
        (RESOURCE_EXHAUSTED, {[ "threads" := VStr "5" ]}) ]) ].

(** The mutable part of an [IntelligentErrorHandler]; the four tables above
    are assigned once in [__init__] and never written again. *)
Record Handler : Type := mkHandler {
  error_history : list ErrorContext;
  max_history_size : Z
}.

(** [__init__] *)
Definition init_handler : Handler :=
  {| error_history := []; max_history_size := 1000 |}.

(* ===================================================================== *)
(** ** Results of operations that may raise                               *)
(* ===================================================================== *)

Inductive PyError : Type := IndexError | KeyError | OverflowError.

Inductive result (A : Type) : Type :=
  | Ok (a : A)
  | Raise (e : PyError).
Arguments Ok {A} a.
Arguments Raise {A} e.

Definition bind {A B : Type} (r : result A) (k : A -> result B) : result B :=
  match r with
  | Ok a => k a
  | Raise e => Raise e
  end.

Notation "'let!' x ':=' r 'in' k" := (bind r (fun x => k))
  (at level 10, x name, r at level 100, k at level 200).

(** [l[0]] *)
Definition index0 {A : Type} (l : list A) : result A :=
  match l with
  | x :: _ => Ok x
  | [] => Raise IndexError
  end.

(** [d[k]] on a dict written as the list of its items. *)
Definition dict_index {K V : Type} `{EqDecision K} (d : list (K * V)) (k : K)
  : result V :=
  match dict_get d k with
  | Some v => Ok v
  | None => Raise KeyError
  end.

(** [l[start:]] *)
Definition slice_from {A : Type} (start : Z) (l : list A) : list A :=
  let len := Z.of_nat (length l) in
  let start' := if start <? 0 then Z.max (start + len) 0 else Z.min start len in
  drop (Z.to_nat start') l.

(* ===================================================================== *)
(** ** Strategy selection                                                 *)
(* ===================================================================== *)

(** The exact reading of the score: the arithmetic of the formula without
    rounding.  Its double-precision reading is in [Double], below.

    [strategy.success_probability * (0.9 ** (context.attempt_count - 1))] *)
Definition adjusted_probability (strategy : RecoveryStrategy)
    (attempts : Z) : Q :=
  (success_probability strategy * (9#10) ^ (attempts - 1))%Q.

(** [adjusted_probability - (strategy.estimated_time / 1000.0)] *)
Definition score (strategy : RecoveryStrategy) (attempts : Z) : Q :=
  (adjusted_probability strategy attempts
   - inject_Z (estimated_time strategy) / 1000)%Q.

Definition Qltb (x y : Q) : bool := negb (Qle_bool y x).

(** [list.sort(key=lambda x: x[0], reverse=True)]: a stable sort by
    decreasing key; entries of equal key keep their relative order. *)
Fixpoint insert_desc {A : Type} (x : Q * A) (sorted : list (Q * A))
  : list (Q * A) :=
  match sorted with
  | [] => [x]
  | y :: rest =>
      if Qltb (fst x) (fst y) then y :: insert_desc x rest
      else x :: sorted
  end.

Definition sort_desc {A : Type} (l : list (Q * A)) : list (Q * A) :=
  foldr insert_desc [] l.

(** The strategy fabricated when every candidate is exhausted. *)
Definition exhausted_strategy (context : ErrorContext) : RecoveryStrategy :=
  {| action := ESCALATE_TO_HUMAN;
     strategy_parameters :=
       {[ "message" :=
            VStr ("All recovery strategies exhausted for " ++ tool_name context);
          "urgency" := VStr "high" ]};
     max_attempts := 1;
     backoff_multiplier := 1;
     success_probability := 9#10;
     estimated_time := 300 |}.

Definition _select_best_strategy (strategies : list RecoveryStrategy)
    (context : ErrorContext) : result RecoveryStrategy :=
  let viable_strategies :=
    filter (fun s => attempt_count context <= max_attempts s) strategies in
  match viable_strategies with
  | [] => Ok (exhausted_strategy context)
  | _ :: _ =>
      let scored_strategies :=
        map (fun strategy => (score strategy (attempt_count context), strategy))
            viable_strategies in
      let! best := index0 (sort_desc scored_strategies) in
      Ok (snd best)
  end.

(* ===================================================================== *)
(** ** Parameter adjustment                                               *)
(* ===================================================================== *)

(** [self.parameter_adjustments.get(tool, {}).get(error_type, {})] *)
Definition declared_adjustments (tool : string) (error_type : ErrorType)
  : gmap string pyval :=
  default ∅ (dict_get (default [] (dict_get parameter_adjustments tool))
                      error_type).

(** The body of [if not adjustments:], a chain of [if]/[elif] without
    [else]: other error types leave [adjustments] as it is. *)
Definition generic_adjustments (error_type : ErrorType)
    (adjustments : gmap string pyval) : gmap string pyval :=
  match error_type with
  | TIMEOUT => {[ "timeout" := VStr "60"; "threads" := VStr "5" ]}
  | RATE_LIMITED => {[ "delay" := VStr "2s"; "threads" := VStr "3" ]}
  | RESOURCE_EXHAUSTED => {[ "threads" := VStr "3"; "memory_limit" := VStr "1G" ]}
  | _ => adjustments
  end.

(** [dict.update]: the keys of [other] overwrite, every other key stays. *)
Definition dict_update (d other : gmap string pyval) : gmap string pyval :=
  other ∪ d.

Definition auto_adjust_parameters (tool : string) (error_type : ErrorType)
    (original_params : gmap string pyval) : gmap string pyval :=
  let adjustments := declared_adjustments tool error_type in
  let adjustments :=
    if decide (adjustments = ∅)
    then generic_adjustments error_type adjustments
    else adjustments in
  let adjusted_params := original_params in
  dict_update adjusted_params adjustments.

(* ===================================================================== *)
(** ** Tool substitution                                                  *)
(* ===================================================================== *)

(** [alt in [...]] *)
Definition str_in (s : string) (l : list string) : bool :=
  existsb (String.eqb s) l.

(** The two [continue] tests of the filtering loop. *)
Definition skipped (context : gmap string pyval) (alt : string) : bool :=
  (truthy (context !! "require_no_privileges") && str_in alt ["nmap"; "masscan"])
  || (truthy (context !! "prefer_faster_tools") && str_in alt ["amass"; "w3af"]).

(** The loop building [filtered_alternatives] by [append]. *)
Fixpoint filter_alternatives (context : gmap string pyval)
    (alternatives filtered_alternatives : list string) : list string :=
  match alternatives with
  | [] => filtered_alternatives
  | alt :: rest =>
      if skipped context alt
      then filter_alternatives context rest filtered_alternatives
      else filter_alternatives context rest (filtered_alternatives ++ [alt])%list
  end.

Definition get_alternative_tool (failed_tool : string)
    (context : gmap string pyval) : option string :=
  let alternatives := default [] (dict_get tool_alternatives failed_tool) in
  match alternatives with
  | [] => None
  | _ :: _ =>
      let filtered_alternatives := filter_alternatives context alternatives [] in
      let filtered_alternatives :=
        match filtered_alternatives with
        | [] => alternatives
        | _ :: _ => filtered_alternatives
        end in
      match filtered_alternatives with
      | alt :: _ => Some alt
      | [] => None
      end
  end.

(* ===================================================================== *)
(** ** The incident ledger and its statistics                             *)
(* ===================================================================== *)

Definition _add_to_history (self : Handler) (error_context : ErrorContext)
  : Handler :=
  let history := (error_history self ++ [error_context])%list in
  if max_history_size self <? Z.of_nat (length history)
  then {| error_history := slice_from (- max_history_size self) history;
          max_history_size := max_history_size self |}
  else {| error_history := history;
          max_history_size := max_history_size self |}.

(** One entry of the [recent_errors] list; [isoformat()] is kept as the
    timestamp it prints. *)
Record RecentError : Type := mkRecentError {
  recent_tool : string;
  recent_error_type : string;
  recent_timestamp : Z
}.

(** The values of the statistics dict. *)
Inductive statval : Type :=
  | SInt (n : Z)
  | SCounts (counts : gmap string Z)
  | SRecent (entries : list RecentError).

Definition one_hour : Z := 3600 * 1000000.

(** The three accumulators of the statistics loop. *)
Record StatsAcc : Type := mkStatsAcc {
  error_counts : gmap string Z;
  tool_errors : gmap string Z;
  recent_errors : list RecentError
}.

(** One iteration of [for error in self.error_history], with the reading
    [now] that [datetime.now()] gives in it. *)
Definition stats_step (now : Z) (acc : StatsAcc) (error : ErrorContext)
  : StatsAcc :=
  let error_type := ErrorType_value (error_type error) in
  let tool := tool_name error in
  {| error_counts :=
       <[ error_type := default 0 (error_counts acc !! error_type) + 1 ]>
         (error_counts acc);
     tool_errors :=
       <[ tool := default 0 (tool_errors acc !! tool) + 1 ]> (tool_errors acc);
     recent_errors :=
       if now - timestamp error <? one_hour
       then (recent_errors acc
             ++ [ {| recent_tool := tool;
                     recent_error_type := error_type;
                     recent_timestamp := timestamp error |} ])%list
       else recent_errors acc |}.

(** The loop; [clock i] is the time read in iteration [i]. *)
Fixpoint stats_loop (clock : nat -> Z) (i : nat) (history : list ErrorContext)
    (acc : StatsAcc) : StatsAcc :=
  match history with
  | [] => acc
  | error :: rest =>
      stats_loop clock (S i) rest (stats_step (clock i) acc error)
  end.

Definition get_error_statistics (clock : nat -> Z) (self : Handler)
  : gmap string statval :=
  match error_history self with
  | [] => {[ "total_errors" := SInt 0 ]}
  | _ :: _ =>
      let acc := stats_loop clock 0 (error_history self) (mkStatsAcc ∅ ∅ []) in
      {[ "total_errors" := SInt (Z.of_nat (length (error_history self)));
         "error_counts_by_type" := SCounts (error_counts acc);
         "error_counts_by_tool" := SCounts (tool_errors acc);
         "recent_errors_count" := SInt (Z.of_nat (length (recent_errors acc)));
         "recent_errors" := SRecent (slice_from (-10) (recent_errors acc)) ]}
  end.

(* ===================================================================== *)
(** ** The facade                                                         *)
(* ===================================================================== *)

(** The [context] dict of [handle_tool_failure], by the three keys read. *)
Record CallContext : Type := mkCallContext {
  context_target : option string;
  context_parameters : option (gmap string pyval);
  context_attempt_count : option Z
}.

(** What the facade reads from its surroundings: the clock, the traceback
    and the resource snapshot. *)
Record Environment : Type := mkEnvironment {
  env_now : Z;
  env_traceback : string;
  env_system_resources : gmap string pyval
}.

Definition handle_tool_failure (env : Environment) (self : Handler)
    (tool : string) (error : PyException) (context : CallContext)
  : result RecoveryStrategy * Handler :=
  let error_message := exception_str error in
  let error_type := classify_error error_message (Some error) in
  let error_context :=
    {| tool_name := tool;
       target := default "unknown" (context_target context);
       parameters := default ∅ (context_parameters context);
       error_type := error_type;
       error_message := error_message;
       attempt_count := default 1 (context_attempt_count context);
       timestamp := env_now env;
       stack_trace := env_traceback env;
       system_resources := env_system_resources env;
       previous_errors := [] |} in
  let self := _add_to_history self error_context in
  let best_strategy :=
    let! fallback := dict_index recovery_strategies UNKNOWN in
    let strategies := default fallback (dict_get recovery_strategies error_type) in
    _select_best_strategy strategies error_context in
  (best_strategy, self).

(* ===================================================================== *)
(** ** Selection in double precision                                      *)
(* ===================================================================== *)

(** The selection and the facade once more, with [float] as CPython has
    it: an IEEE 754 binary64 number.  [spec_float], with the operations of
    [SpecFloat] at precision 53 and maximal exponent 1024, is the standard
    library's executable specification of these numbers and of their
    arithmetic, rounded to nearest with ties to even.

    What the earlier, exact reading leaves out is here: a product or a
    difference is rounded, so that scores that differ as rationals can be
    equal as doubles; [0.9 ** k] is computed by [pow] of the C library;
    converting an [int] too large for a double raises [OverflowError]; so
    does a power that overflows. *)
Module Double.

Definition double : Type := spec_float.

Definition prec : Z := 53.
Definition emax : Z := 1024.

Definition mul : double -> double -> double := SFmul prec emax.
Definition sub : double -> double -> double := SFsub prec emax.
Definition div : double -> double -> double := SFdiv prec emax.

(** [x < y] and [x <= y] on doubles; both are false when a side is NaN. *)
Definition ltb : double -> double -> bool := SFltb.
Definition leb : double -> double -> bool := SFleb.

Definition is_nan (d : double) : bool :=
  match d with
  | S754_nan => true
  | _ => false
  end.

(** The double nearest to an integer. *)
Definition of_int (n : Z) : double := binary_normalize prec emax n 0 false.

(** The conversion of an [int] operand to [float]: [OverflowError] ("int
    too large to convert to float") when the nearest double is infinite. *)
Definition int_to_float (n : Z) : result double :=
  match of_int n with
  | S754_infinity _ => Raise OverflowError
  | d => Ok d
  end.

(** The double a decimal literal denotes, for a literal whose digits and
    power of ten are below 2^53 (every literal of the source is): the
    correctly rounded quotient.  The [float] fields of a strategy, kept as
    the rationals their literals spell, are read through it. *)
Definition of_decimal (q : Q) : double :=
  div (of_int (Qnum q)) (of_int (Zpos (Qden q))).

Section Scoring.

(** [pow] of the C library, as a function on doubles. *)
Variable libm_pow : double -> double -> double.

(** [v ** w] for a [float] [v] that is positive, finite and not 1.0 (the
    one use has 0.9) and an [int] [w], after [float_pow] of CPython: [w] is
    converted; a zero exponent gives 1.0 without a call of [pow]; any other
    goes to [pow], and an infinite result raises [OverflowError]. *)
Definition float_pow (v : double) (w : Z) : result double :=
  let! iw := int_to_float w in
  match iw with
  | S754_zero _ => Ok (of_int 1)
  | _ =>
      match libm_pow v iw with
      | S754_infinity _ => Raise OverflowError
      | ix => Ok ix
      end
  end.

(** [strategy.success_probability * (0.9 ** (context.attempt_count - 1))] *)
Definition adjusted_probability (strategy : RecoveryStrategy)
    (attempts : Z) : result double :=
  let! discount := float_pow (of_decimal (9#10)) (attempts - 1) in
  Ok (mul (of_decimal (success_probability strategy)) discount).

(** [adjusted_probability - (strategy.estimated_time / 1000.0)] *)
Definition score (strategy : RecoveryStrategy) (attempts : Z)
  : result double :=
  let! adjusted_probability := adjusted_probability strategy attempts in
  let! estimated_time := int_to_float (estimated_time strategy) in
  Ok (sub adjusted_probability (div estimated_time (of_int 1000))).

(** The loop that fills [scored_strategies]; the first score that raises
    ends it. *)
Fixpoint score_all (viable_strategies : list RecoveryStrategy)
    (attempts : Z) : result (list (double * RecoveryStrategy)) :=
  match viable_strategies with
  | [] => Ok []
  | strategy :: rest =>
      let! score := score strategy attempts in
      let! scored_strategies := score_all rest attempts in
      Ok ((score, strategy) :: scored_strategies)
  end.

(** [list.sort(key=lambda x: x[0], reverse=True)] on keys that are not NaN:
    a stable sort by decreasing key. *)
Fixpoint insert_desc {A : Type} (x : double * A) (sorted : list (double * A))
  : list (double * A) :=
  match sorted with
  | [] => [x]
  | y :: rest =>
      if ltb (fst x) (fst y) then y :: insert_desc x rest
      else x :: sorted
  end.

Definition sort_desc {A : Type} (l : list (double * A))
  : list (double * A) :=
  foldr insert_desc [] l.

Definition _select_best_strategy (strategies : list RecoveryStrategy)
    (context : ErrorContext) : result RecoveryStrategy :=
  let viable_strategies :=
    filter (fun s => attempt_count context <= max_attempts s) strategies in
  match viable_strategies with
  | [] => Ok (exhausted_strategy context)
  | _ :: _ =>
      let! scored_strategies :=
        score_all viable_strategies (attempt_count context) in
      let! best := index0 (sort_desc scored_strategies) in
      Ok (snd best)
  end.

Definition handle_tool_failure (env : Environment) (self : Handler)
    (tool : string) (error : PyException) (context : CallContext)
  : result RecoveryStrategy * Handler :=
  let error_message := exception_str error in
  let error_type := classify_error error_message (Some error) in
  let error_context :=
    {| tool_name := tool;
       target := default "unknown" (context_target context);
       parameters := default ∅ (context_parameters context);
       error_type := error_type;
       error_message := error_message;
       attempt_count := default 1 (context_attempt_count context);
       timestamp := env_now env;
       stack_trace := env_traceback env;
       system_resources := env_system_resources env;
       previous_errors := [] |} in
  let self := _add_to_history self error_context in
  let best_strategy :=
    let! fallback := dict_index recovery_strategies UNKNOWN in
    let strategies := default fallback (dict_get recovery_strategies error_type) in
    _select_best_strategy strategies error_context in
  (best_strategy, self).

End Scoring.

End Double.

(* ===================================================================== *)
(** ** Escalation                                                         *)
(* ===================================================================== *)

Definition _get_human_suggestions (context : ErrorContext) : list string :=
  let suggestions := [] in
  match error_type context with
  | PERMISSION_DENIED =>
      (suggestions
       ++ [ "Run the command with sudo privileges";
            "Check file/directory permissions";
            "Verify user is in required groups" ])%list
  | TOOL_NOT_FOUND =>
      (suggestions
       ++ [ ("Install " ++ tool_name context ++ " using package manager")%string;
            "Check if tool is in PATH";
            "Verify tool installation" ])%list
  | NETWORK_UNREACHABLE =>
      (suggestions
       ++ [ "Check network connectivity";
            "Verify target is accessible";
            "Check firewall rules" ])%list
  | RATE_LIMITED =>
      (suggestions
       ++ [ "Wait before retrying";
            "Use slower scan rates";
            "Check API rate limits" ])%list
  | _ => (suggestions ++ [ "Review error details and logs" ])%list
  end.

(** The nested dict under the key "context". *)
Record EscalationContext : Type := mkEscalationContext {
  esc_parameters : gmap string pyval;
  esc_system_resources : gmap string pyval;
  esc_recent_errors : list string
}.

(** The dict [escalation_data], by its keys; [isoformat()] is kept as the
    timestamp it prints. *)
Record EscalationData : Type := mkEscalationData {
  esc_timestamp : Z;
  esc_tool : string;
  esc_target : string;
  esc_error_type : string;
  esc_error_message : string;
  esc_attempt_count : Z;
  esc_urgency : string;
  esc_suggested_actions : list string;
  esc_context : EscalationContext
}.

(** [escalate_to_human(context, urgency="medium")]: [None] stands for a call
    that leaves [urgency] out.  The three log lines are not part of the
    returned value. *)
Definition escalate_to_human (context : ErrorContext)
    (urgency : option string) : EscalationData :=
  let urgency := default "medium" urgency in
  {| esc_timestamp := timestamp context;
     esc_tool := tool_name context;
     esc_target := target context;
     esc_error_type := ErrorType_value (error_type context);
     esc_error_message := error_message context;
     esc_attempt_count := attempt_count context;
     esc_urgency := urgency;
     esc_suggested_actions := _get_human_suggestions context;
     esc_context :=
       {| esc_parameters := parameters context;
          esc_system_resources := system_resources context;
          esc_recent_errors :=
            map error_message (slice_from (-5) (previous_errors context)) |} |}.

(* ===================================================================== *)
(** ** Vocabulary of the statements                                       *)
(* ===================================================================== *)

(** No row of [table] matches [text]. *)
Definition no_matching_row (table : list (string * ErrorType))
    (text : string) : Prop :=
  Forall (fun row => re_search_ignorecase (fst row) text = false) table.

(** The first row of [table] that matches [text] maps to [k]. *)
Definition first_matching_row (table : list (string * ErrorType))
    (text : string) (k : ErrorType) : Prop :=
  exists pre pattern post,
    table = (pre ++ (pattern, k) :: post)%list
    /\ re_search_ignorecase pattern text = true
    /\ no_matching_row pre text.

(** The list handed to the sort: every entry with its key. *)
Definition keyed {A : Type} (key : A -> Q) (l : list A) : list (Q * A) :=
  map (fun x => (key x, x)) l.

(** A context with given tool and attempt count, everything else empty. *)
Definition context_of (tool : string) (attempts : Z) : ErrorContext :=
  {| tool_name := tool; target := "unknown"; parameters := ∅;
     error_type := UNKNOWN; error_message := ""; attempt_count := attempts;
     timestamp := 0; stack_trace := ""; system_resources := ∅;
     previous_errors := [] |}.

(** The catalog entry of a kind, as [handle_tool_failure] fetches it. *)
Definition catalog (k : ErrorType) : list RecoveryStrategy :=
  default [] (dict_get recovery_strategies k).

(** Two candidates of equal score, told apart by their action. *)
Definition tie_first : RecoveryStrategy :=
  mkRecoveryStrategy RETRY_WITH_BACKOFF ∅ 2 1 (5#10) 10.
Definition tie_second : RecoveryStrategy :=
  mkRecoveryStrategy ADJUST_PARAMETERS ∅ 2 1 (5#10) 10.


(** The delta that applies to a tool and a kind, in the words of the
    specification: the one declared for the tool and the kind; failing that
    the generic one of the kind, which exists for three kinds; failing that
    the empty one. *)
Definition applicable_delta (tool : string) (kind : ErrorType)
  : gmap string pyval :=
  match dict_get parameter_adjustments tool with
  | Some per_kind =>
      match dict_get per_kind kind with
      | Some delta => delta
      | None => generic_adjustments kind ∅
      end
  | None => generic_adjustments kind ∅
  end.

(** The generic delta of a kind, as the specification describes it: one for
    a timeout, one for rate limiting, one for resource exhaustion, empty
    for every other kind. *)
Definition generic_delta (kind : ErrorType) : gmap string pyval :=
  match kind with
  | TIMEOUT => {[ "timeout" := VStr "60"; "threads" := VStr "5" ]}
  | RATE_LIMITED => {[ "delay" := VStr "2s"; "threads" := VStr "3" ]}
  | RESOURCE_EXHAUSTED => {[ "threads" := VStr "3"; "memory_limit" := VStr "1G" ]}
  | _ => ∅
  end.

(** The delta the specification expects for a tool and a kind: the declared
    one when the table has a row for the tool and the kind, the generic
    one of the kind otherwise.  It reads the declared table and
    [generic_delta], nothing of the body of [auto_adjust_parameters]. *)
Definition expected_delta (tool : string) (kind : ErrorType)
  : gmap string pyval :=
  match dict_get parameter_adjustments tool with
  | Some per_kind =>
      match dict_get per_kind kind with
      | Some delta => delta
      | None => generic_delta kind
      end
  | None => generic_delta kind
  end.

(** An exception of no recognized type that prints as the given message. *)
Definition plain_exception (message : string) : PyException :=
  {| exception_str := message;
     is_TimeoutError := false; is_PermissionError := false;
     is_ConnectionError := false; is_FileNotFoundError := false |}.

(** The alternatives declared for a tool, none for a tool not in the
    table. *)
Definition declared_alternatives (tool : string) : list string :=
  default [] (dict_get tool_alternatives tool).

(** The alternatives that the constraints of [context] do not exclude. *)
Definition surviving (context : gmap string pyval) (l : list string)
  : list string :=
  filter (fun alt => skipped context alt = false) l.

(** The constraints in the words of the specification.  A flag is set
    when the context holds a value for it that Python takes as true: [True],
    a number other than 0, a string other than the empty one. *)
Definition flag_set (context : gmap string pyval) (flag : string) : Prop :=
  match context !! flag with
  | None => False
  | Some (VBool b) => b = true
  | Some (VInt n) => n <> 0
  | Some (VStr s) => s <> ""
  end.

(** The alternatives that typically need privileges, and the slow ones. *)
Definition requires_privileges (alt : string) : Prop :=
  alt = "nmap" \/ alt = "masscan".

Definition slow (alt : string) : Prop :=
  alt = "amass" \/ alt = "w3af".

(** [require_no_privileges] excludes the alternatives that need privileges,
    [prefer_faster_tools] the slow ones. *)
Definition excluded (context : gmap string pyval) (alt : string) : Prop :=
  (flag_set context "require_no_privileges" /\ requires_privileges alt)
  \/ (flag_set context "prefer_faster_tools" /\ slow alt).

#[global] Instance flag_set_dec (context : gmap string pyval) (flag : string) :
  Decision (flag_set context flag).
Proof.
  unfold flag_set. destruct (context !! flag) as [[s|b|n]|]; apply _.
Defined.

#[global] Instance excluded_dec (context : gmap string pyval) (alt : string) :
  Decision (excluded context alt).
Proof. unfold excluded, requires_privileges, slow. apply _. Defined.

(** A sequence of appends. *)
Definition add_all (self : Handler) (incidents : list ErrorContext)
  : Handler :=
  foldl _add_to_history self incidents.

(** What one iteration does to a counter map. *)
Definition bump (key : string) (m : gmap string Z) : gmap string Z :=
  <[ key := default 0 (m !! key) + 1 ]> m.

(** The number of incidents that [f] maps to [key]. *)
Definition occurrences (f : ErrorContext -> string) (key : string)
    (history : list ErrorContext) : nat :=
  length (filter (fun e => f e = key) history).

(** A counter map holds no entry for a count of zero. *)
Definition count_entry (n : nat) : option Z :=
  match n with
  | O => None
  | S _ => Some (Z.of_nat n)
  end.

Definition kind_of (e : ErrorContext) : string :=
  ErrorType_value (error_type e).

Definition recent_entry (e : ErrorContext) : RecentError :=
  {| recent_tool := tool_name e;
     recent_error_type := kind_of e;
     recent_timestamp := timestamp e |}.

(** The incidents less than an hour old, each against the clock reading of
    its own iteration, in ledger order. *)
Fixpoint recent_entries (clock : nat -> Z) (i : nat)
    (history : list ErrorContext) : list RecentError :=
  match history with
  | [] => []
  | e :: rest =>
      if clock i - timestamp e <? one_hour
      then recent_entry e :: recent_entries clock (S i) rest
      else recent_entries clock (S i) rest
  end.

(** The incident that [handle_tool_failure] builds from its arguments. *)
Definition incident_of (env : Environment) (tool : string)
    (error : PyException) (context : CallContext) : ErrorContext :=
  {| tool_name := tool;
     target := default "unknown" (context_target context);
     parameters := default ∅ (context_parameters context);
     error_type := classify_error (exception_str error) (Some error);
     error_message := exception_str error;
     attempt_count := default 1 (context_attempt_count context);
     timestamp := env_now env;
     stack_trace := env_traceback env;
     system_resources := env_system_resources env;
     previous_errors := [] |}.

(** The action of a selection that did not raise. *)
Definition action_of (r : result RecoveryStrategy) : result RecoveryAction :=
  match r with
  | Ok s => Ok (action s)
  | Raise e => Raise e
  end.

(** The action the catalog and the scoring lead to, by kind and attempt
    count (from 1 on). *)
Definition decision (k : ErrorType) (attempts : Z) : RecoveryAction :=
  match k with
  | TIMEOUT =>
      if attempts <=? 2 then RETRY_WITH_REDUCED_SCOPE
      else if attempts <=? 3 then RETRY_WITH_BACKOFF
      else ESCALATE_TO_HUMAN
  | PERMISSION_DENIED => ESCALATE_TO_HUMAN
  | NETWORK_UNREACHABLE =>
      if attempts <=? 3 then RETRY_WITH_BACKOFF else ESCALATE_TO_HUMAN
  | RATE_LIMITED =>
      if attempts <=? 5 then RETRY_WITH_BACKOFF else ESCALATE_TO_HUMAN
  | TOOL_NOT_FOUND =>
      if attempts <=? 1 then SWITCH_TO_ALTERNATIVE_TOOL else ESCALATE_TO_HUMAN
  | INVALID_PARAMETERS =>
      if attempts <=? 3 then ADJUST_PARAMETERS else ESCALATE_TO_HUMAN
  | RESOURCE_EXHAUSTED =>
      if attempts <=? 2 then RETRY_WITH_REDUCED_SCOPE else ESCALATE_TO_HUMAN
  | AUTHENTICATION_FAILED => ESCALATE_TO_HUMAN
  | TARGET_UNREACHABLE =>
      if attempts <=? 1 then GRACEFUL_DEGRADATION
      else if attempts <=? 3 then RETRY_WITH_BACKOFF
      else ESCALATE_TO_HUMAN
  | PARSING_ERROR =>
      if attempts <=? 2 then ADJUST_PARAMETERS else ESCALATE_TO_HUMAN
  | UNKNOWN =>
      if attempts <=? 1 then ESCALATE_TO_HUMAN
      else if attempts <=? 2 then RETRY_WITH_BACKOFF
      else ESCALATE_TO_HUMAN
  end.

(** The bounds the data model puts on a strategy, and no abort. *)
Definition well_formed (s : RecoveryStrategy) : bool :=
  (1 <=? max_attempts s)
  && Qle_bool 1 (backoff_multiplier s)
  && Qle_bool 0 (success_probability s)
  && Qle_bool (success_probability s) 1
  && (0 <=? estimated_time s)
  && negb (bool_decide (action s = ABORT_OPERATION)).

(** The counter map that the statistics loop builds for the key [f]. *)
Definition counts_by (f : ErrorContext -> string)
    (history : list ErrorContext) : gmap string Z :=
  foldl (fun m e => bump (f e) m) ∅ history.

(** The sum of the counters of a map. *)
Definition sum_counts (m : gmap string Z) : Z :=
  map_fold (fun _ v acc => v + acc) 0 m.

(** The parameter names that some delta, declared or generic, sets. *)
Definition tuning_keys : gset string :=
  {[ "timing"; "reduce_ports"; "delay"; "max_parallelism"; "threads";
     "timeout"; "concurrency"; "rate-limit"; "rate"; "memory_limit" ]}.

(** The kinds for which a delta exists. *)
Definition adjustable (kind : ErrorType) : bool :=
  match kind with
  | TIMEOUT | RATE_LIMITED | RESOURCE_EXHAUSTED => true
  | _ => false
  end.

(** What the lookup picks among declared alternatives: the first that
    survives the constraints, the first of all when none survives. *)
Definition pick_alternative (context : gmap string pyval)
    (alternatives : list string) : option string :=
  match surviving context alternatives with
  | alt :: _ => Some alt
  | [] => head alternatives
  end.

(** A context that holds the two flags and nothing else. *)
Definition flags_context (no_privileges faster : bool) : gmap string pyval :=
  {[ "require_no_privileges" := VBool no_privileges;
     "prefer_faster_tools" := VBool faster ]}.

(** [classify_error] over another pattern table. *)
Definition classify_with (table : list (string * ErrorType))
    (error_message : string) (exception : option PyException) : ErrorType :=
  match check_exception_type exception with
  | Some error_type => error_type
  | None => check_error_patterns table (lower error_message)
  end.

(** The pattern table without its second and tenth rows. *)
Definition live_patterns : list (string * ErrorType) :=
  filter (fun row => fst row <> "operation timed out|command timeout"
                     /\ fst row <> "executable not found|binary not found")
         error_patterns.

(** The place of a kind in the order of declaration. *)
Definition rank (k : ErrorType) : nat :=
  match k with
  | TIMEOUT => 0
  | PERMISSION_DENIED => 1
  | NETWORK_UNREACHABLE => 2
  | RATE_LIMITED => 3
  | TOOL_NOT_FOUND => 4
  | INVALID_PARAMETERS => 5
  | RESOURCE_EXHAUSTED => 6
  | AUTHENTICATION_FAILED => 7
  | TARGET_UNREACHABLE => 8
  | PARSING_ERROR => 9
  | UNKNOWN => 10
  end.

(** The keys of [d], listed, all belong to [keys]. *)
Definition keys_within (keys : gset string) (d : gmap string pyval) : bool :=
  forallb (fun kv : string * pyval => bool_decide (fst kv ∈ keys))
          (map_to_list d).

(** *** Double precision *)

(** 0.9, the base of the discount, as a double. *)
Definition nine_tenths : Double.double := Double.of_decimal (9#10).

(** A candidate whose estimated time no double holds. *)
Definition endless : RecoveryStrategy :=
  mkRecoveryStrategy RETRY_WITH_BACKOFF ∅ 3 1 (5#10) (2 ^ 1024).

(** Scoring [s] at an attempt count goes through and gives a number. *)
Definition scorable (libm_pow : Double.double -> Double.double -> Double.double)
    (attempts : Z) (s : RecoveryStrategy) : Prop :=
  exists d, Double.score libm_pow s attempts = Ok d /\ Double.is_nan d = false.

(** The scores of [s] and of [best] are computed and stand in relation
    [R]. *)
Definition scores (libm_pow : Double.double -> Double.double -> Double.double)
    (attempts : Z) (R : Double.double -> Double.double -> bool)
    (s best : RecoveryStrategy) : Prop :=
  exists x y,
    Double.score libm_pow s attempts = Ok x
    /\ Double.score libm_pow best attempts = Ok y
    /\ R x y = true.

(** The power [v ^ k] of a positive finite double, computed exactly and
    rounded once. *)
Definition exact_power (v : Double.double) (k : Z) : Double.double :=
  match v with
  | S754_finite false m e =>
      binary_normalize Double.prec Double.emax (Zpos m ^ k) (e * k) false
  | _ => v
  end.

(** A double and the two doubles next to it. *)
Definition neighbours (r : Double.double) : list Double.double :=
  [SFpred Double.prec Double.emax r; r; SFsucc Double.prec Double.emax r].

#[global] Instance double_eq_dec : EqDecision Double.double.
Proof. unfold Double.double. solve_decision. Defined.

(** The values [0.9 ** k] can take for an exponent from 0 to 4 when [pow]
    is accurate to one unit in the last place: 1.0 for 0, where [pow] is
    not called, and the correctly rounded power or a neighbour of it
    elsewhere. *)
Definition discounts (k : Z) : list Double.double :=
  if k =? 0 then [Double.of_int 1] else neighbours (exact_power nine_tenths k).

(** [pow] is accurate to one unit in the last place for 0.9 at the
    exponents 1 to 4, those the declared budgets can reach. *)
Definition accurate (libm_pow : Double.double -> Double.double -> Double.double)
  : bool :=
  forallb (fun k => bool_decide (libm_pow nine_tenths (Double.of_int k)
                                 ∈ discounts k))
          [1; 2; 3; 4].

(** A [pow] that is correctly rounded at the exponents 1 to 4 and gives
    0.0 elsewhere; it stands for the C library in closed instances. *)
Definition sample_pow (v w : Double.double) : Double.double :=
  match filter (fun k => w = Double.of_int k) [1; 2; 3; 4] with
  | k :: _ => exact_power v k
  | [] => S754_zero false
  end.




(** The second of the timeout candidates. *)
Definition timeout_reduced_scope : RecoveryStrategy :=
  mkRecoveryStrategy RETRY_WITH_REDUCED_SCOPE
    {[ "reduce_threads" := VBool true; "reduce_timeout" := VBool true ]}
    2 1 (8#10) 45.

(** A candidate whose success probability is above that of [tie_first] by
    less than a double next to 0.5 can tell. *)
Definition nearly_tied : RecoveryStrategy :=
  mkRecoveryStrategy ADJUST_PARAMETERS ∅ 2 1
    (50000000000000001 # 100000000000000000) 10.

(** A [pow] that gives [d] everywhere. *)
Definition constant_pow (d : Double.double) (v w : Double.double)
  : Double.double := d.

(** The score of [s] at the first attempt is computed, whatever [pow]
    is. *)
Definition scored_at_first (s : RecoveryStrategy) : bool :=
  match Double.score (constant_pow S754_nan) s 1 with
  | Ok _ => true
  | Raise _ => false
  end.

(* ===================================================================== *)
(** * Properties                                                          *)
(* ===================================================================== *)

(* --------------------------------------------------------------------- *)
(** ** Strings                                                            *)
(* --------------------------------------------------------------------- *)

Lemma lower_char_idempotent (c : ascii) :
  lower_char (lower_char c) = lower_char c.
Proof. destruct c as [[] [] [] [] [] [] [] []]; reflexivity. Qed.

Lemma lower_idempotent (s : string) : lower (lower s) = lower s.
Proof.
  induction s as [|c s IH]; simpl; [reflexivity|].
  now rewrite lower_char_idempotent, IH.
Qed.

Lemma match_here_search (p s : string) :
  match_here p s = true -> search_literal p s = true.
Proof. intros H. destruct s; simpl in *; now rewrite H. Qed.

Lemma search_literal_tail (p : string) (c : ascii) (s : string) :
  search_literal p s = true -> search_literal p (String c s) = true.
Proof. intros H. simpl. rewrite H. apply orb_true_r. Qed.

Lemma match_here_app (a b s : string) :
  match_here (a ++ b) s = true -> search_literal b s = true.
Proof.
  revert s. induction a as [|c a IH]; intros s H.
  - now apply match_here_search.
  - destruct s as [|d s]; simpl in H; [discriminate|].
    apply andb_true_iff in H as [_ H].
    apply search_literal_tail, IH, H.
Qed.

(** A text that contains [a ++ b] contains [b]. *)
Lemma search_literal_app (a b s : string) :
  search_literal (a ++ b) s = true -> search_literal b s = true.
Proof.
  induction s as [|d s IH]; intros H.
  - simpl in H. rewrite orb_false_r in H. now apply match_here_app in H.
  - cbn [search_literal] in H. apply orb_true_iff in H as [H|H].
    + now apply match_here_app in H.
    + apply search_literal_tail, IH, H.
Qed.

Lemma re_search_alternative (pattern alt text : string) :
  In alt (alternatives pattern) ->
  search_literal alt text = true ->
  re_search_ignorecase pattern text = true.
Proof.
  intros Hin H. unfold re_search_ignorecase.
  apply existsb_exists. now exists alt.
Qed.

Lemma no_matching_row_forallb (table : list (string * ErrorType))
    (text : string) :
  forallb (fun row => negb (re_search_ignorecase (fst row) text)) table = true ->
  no_matching_row table text.
Proof.
  induction table as [|row table IH]; intros H; [constructor|].
  cbn [forallb] in H. apply andb_true_iff in H as [H1 H2].
  constructor; [now apply negb_true_iff | now apply IH].
Qed.

(** Every pattern of the table is built from literals and bars only, so
    [re_search_ignorecase] is what [re.search] computes on it. *)
Lemma error_patterns_literal :
  forallb (fun row => literal_alternation (fst row)) error_patterns = true.
Proof. vm_compute. reflexivity. Qed.

(* --------------------------------------------------------------------- *)
(** ** The classifier                                                     *)
(* --------------------------------------------------------------------- *)

Section PatternLoop.
Variable text : string.

Lemma check_error_patterns_skip (pre rest : list (string * ErrorType)) :
  no_matching_row pre text ->
  check_error_patterns (pre ++ rest) text = check_error_patterns rest text.
Proof.
  induction 1 as [|[p k] pre Hp _ IH]; simpl; [reflexivity|].
  simpl in Hp. now rewrite Hp.
Qed.

Lemma check_error_patterns_none (table : list (string * ErrorType)) :
  no_matching_row table text -> check_error_patterns table text = UNKNOWN.
Proof.
  intros H. rewrite <- (app_nil_r table).
  now rewrite check_error_patterns_skip.
Qed.

Lemma check_error_patterns_first (table : list (string * ErrorType))
    (k : ErrorType) :
  first_matching_row table text k -> check_error_patterns table text = k.
Proof.
  intros (pre & p & post & -> & Hp & Hpre).
  rewrite check_error_patterns_skip by assumption.
  simpl. now rewrite Hp.
Qed.

(** The loop always ends in one of the two ways. *)
Lemma check_error_patterns_cases (table : list (string * ErrorType)) :
  first_matching_row table text (check_error_patterns table text)
  \/ (no_matching_row table text
      /\ check_error_patterns table text = UNKNOWN).
Proof.
  induction table as [|[p k] table IH]; simpl.
  - right. split; [constructor | reflexivity].
  - destruct (re_search_ignorecase p text) eqn:Hp.
    + left. exists [], p, table. repeat split; [assumption | constructor].
    + destruct IH as [(pre & q & post & E & Hq & Hpre) | [Hnone E]].
      * left. exists ((p, k) :: pre), q, post. rewrite E at 1.
        repeat split; [assumption | now constructor].
      * right. split; [now constructor | assumption].
Qed.
End PatternLoop.

Lemma classify_error_no_exception (msg : string) :
  classify_error msg None = check_error_patterns error_patterns (lower msg).
Proof. unfold classify_error. cbn [check_exception_type]. reflexivity. Qed.

Lemma classify_error_unrecognized (msg : string) (exc : option PyException) :
  check_exception_type exc = None ->
  classify_error msg exc = classify_error msg None.
Proof.
  intros H. unfold classify_error. rewrite H.
  cbn [check_exception_type]. reflexivity.
Qed.

(** C3.  Classification is total and decided in this order: a present
    exception that is a [TimeoutError], [PermissionError], [ConnectionError]
    or [FileNotFoundError] (tested in that order) gives [TIMEOUT],
    [PERMISSION_DENIED], [NETWORK_UNREACHABLE] or [TOOL_NOT_FOUND] whatever
    the message; otherwise the result is the kind of the first row of the
    pattern table, in its declared order, that matches the lower-cased
    message, and [UNKNOWN] when no row matches.  The three documented
    messages classify as documented, in any letter case. *)
Theorem classify_error_spec :
  (forall (msg : string) (e : PyException),
      classify_error msg (Some e) =
        if is_TimeoutError e then TIMEOUT
        else if is_PermissionError e then PERMISSION_DENIED
        else if is_ConnectionError e then NETWORK_UNREACHABLE
        else if is_FileNotFoundError e then TOOL_NOT_FOUND
        else classify_error msg None)
  /\ (forall (msg : string) (k : ErrorType),
      classify_error msg None = k <->
        first_matching_row error_patterns (lower msg) k
        \/ (no_matching_row error_patterns (lower msg) /\ k = UNKNOWN))
  /\ (forall (m1 m2 : string) (exc : option PyException),
      lower m1 = lower m2 -> classify_error m1 exc = classify_error m2 exc)
  /\ (forall (msg : string) (exc : option PyException),
      classify_error (lower msg) exc = classify_error msg exc)
  /\ classify_error "Connection timed out" None = TIMEOUT
  /\ classify_error "CONNECTION TIMED OUT" None = TIMEOUT
  /\ classify_error "Permission denied: /etc/x" None = PERMISSION_DENIED
  /\ classify_error "permission DENIED: /etc/x" None = PERMISSION_DENIED
  /\ classify_error "429 Too Many Requests" None = RATE_LIMITED
  /\ classify_error "429 too many requests" None = RATE_LIMITED.
Proof.
  split; [|split; [|split; [|split]]].
  - intros msg e. unfold classify_error. cbn [check_exception_type].
    destruct (is_TimeoutError e), (is_PermissionError e),
      (is_ConnectionError e), (is_FileNotFoundError e); reflexivity.
  - intros msg k. rewrite classify_error_no_exception. split.
    + intros <-.
      destruct (check_error_patterns_cases (lower msg) error_patterns)
        as [H | [H E]]; [left | right]; auto.
    + intros [H | [H ->]].
      * now apply check_error_patterns_first.
      * now apply check_error_patterns_none.
  - intros m1 m2 exc E. unfold classify_error. now rewrite E.
  - intros msg exc. unfold classify_error. now rewrite lower_idempotent.
  - repeat (apply conj); vm_compute; reflexivity.
Qed.

(** C10.  A message whose lower-cased text contains "host not found" is
    never classified [TARGET_UNREACHABLE]: the row holding the branch
    "not found" comes ninth, the row "host not found|dns resolution failed"
    eighteenth, and the ninth matches whenever the eighteenth would.  When
    no exception type is recognized and none of the eight rows before
    matches, the result is [TOOL_NOT_FOUND]. *)
Theorem host_not_found_is_tool_not_found (msg : string)
    (exc : option PyException) :
  search_literal "host not found" (lower msg) = true ->
  error_patterns !! 8%nat
    = Some ("command not found|no such file or directory|not found",
            TOOL_NOT_FOUND)
  /\ error_patterns !! 17%nat
    = Some ("host not found|dns resolution failed", TARGET_UNREACHABLE)
  /\ re_search_ignorecase "host not found|dns resolution failed" (lower msg)
     = true
  /\ classify_error msg exc <> TARGET_UNREACHABLE
  /\ (check_exception_type exc = None ->
      no_matching_row (take 8 error_patterns) (lower msg) ->
      classify_error msg exc = TOOL_NOT_FOUND).
Proof.
  intros Hhost.
  assert (Hnf : re_search_ignorecase
                  "command not found|no such file or directory|not found"
                  (lower msg) = true).
  { apply (re_search_alternative _ "not found").
    - simpl. auto.
    - apply (search_literal_app "host " "not found"), Hhost. }
  split; [reflexivity|]. split; [reflexivity|]. split; [|split].
  - apply (re_search_alternative _ "host not found"); [simpl; auto | assumption].
  - unfold classify_error.
    destruct (check_exception_type exc) as [k|] eqn:Hexc.
    + destruct exc as [e|]; [|discriminate]. simpl in Hexc.
      destruct (is_TimeoutError e), (is_PermissionError e),
        (is_ConnectionError e), (is_FileNotFoundError e);
        inversion Hexc; discriminate.
    + unfold error_patterns. cbn [check_error_patterns].
      rewrite Hnf. clear Hnf.
      do 8 (destruct (re_search_ignorecase _ (lower msg)); cbv iota;
            [discriminate|]).
      discriminate.
  - intros Hexc Hpre. rewrite (classify_error_unrecognized _ _ Hexc).
    rewrite classify_error_no_exception.
    rewrite <- (take_drop 8 error_patterns).
    rewrite check_error_patterns_skip by assumption.
    unfold error_patterns. cbn [drop check_error_patterns].
    rewrite Hnf. reflexivity.
Qed.

Lemma host_not_found_is_tool_not_found_witness :
  search_literal "host not found" (lower "Host not found: example.com") = true
  /\ classify_error "Host not found: example.com" None = TOOL_NOT_FOUND.
Proof.
  assert (H : search_literal "host not found"
                (lower "Host not found: example.com") = true)
    by (vm_compute; reflexivity).
  split; [exact H|].
  destruct (host_not_found_is_tool_not_found
              "Host not found: example.com" None H) as (_ & _ & _ & _ & Hk).
  apply Hk.
  - reflexivity.
  - apply no_matching_row_forallb. vm_compute. reflexivity.
Defined.

(* --------------------------------------------------------------------- *)
(** ** Strategy selection                                                 *)
(* --------------------------------------------------------------------- *)

Lemma Qltb_lt (x y : Q) : Qltb x y = true <-> (x < y)%Q.
Proof.
  unfold Qltb. rewrite negb_true_iff. split.
  - intros H. apply Qnot_le_lt. intros Hle.
    apply Qle_bool_iff in Hle. congruence.
  - intros H. destruct (Qle_bool y x) eqn:E; [|reflexivity].
    apply Qle_bool_iff in E. exfalso. exact (Qlt_not_le _ _ H E).
Qed.

Lemma Qltb_ge (x y : Q) : Qltb x y = false <-> (y <= x)%Q.
Proof.
  unfold Qltb. rewrite negb_false_iff. apply Qle_bool_iff.
Qed.

Section StableSort.
Context {A : Type} (key : A -> Q).

(** [sort_desc] is a sort: it permutes its input and leaves the keys in
    decreasing order. *)
Lemma insert_desc_Permutation (x : Q * A) (l : list (Q * A)) :
  Permutation (insert_desc x l) (x :: l).
Proof.
  induction l as [|y l IH]; cbn [insert_desc]; [reflexivity|].
  destruct (Qltb (fst x) (fst y)); [|reflexivity].
  rewrite IH. apply perm_swap.
Qed.

Lemma sort_desc_Permutation (l : list (Q * A)) :
  Permutation (sort_desc l) l.
Proof.
  induction l as [|x l IH]; [reflexivity|].
  change (sort_desc (x :: l)) with (insert_desc x (sort_desc l)).
  now rewrite insert_desc_Permutation, IH.
Qed.

Lemma insert_desc_Sorted (x : Q * A) (l : list (Q * A)) :
  Sorted (fun a b => (fst b <= fst a)%Q) l ->
  Sorted (fun a b => (fst b <= fst a)%Q) (insert_desc x l).
Proof.
  induction 1 as [|y l Hs IH Hhd]; cbn [insert_desc].
  - repeat constructor.
  - destruct (Qltb (fst x) (fst y)) eqn:E.
    + apply Qltb_lt in E. constructor; [exact IH|].
      destruct l as [|z l]; cbn [insert_desc].
      * constructor. now apply Qlt_le_weak.
      * destruct (Qltb (fst x) (fst z)); constructor;
          [now inversion Hhd | now apply Qlt_le_weak].
    + apply Qltb_ge in E. repeat constructor; assumption.
Qed.

Lemma sort_desc_Sorted (l : list (Q * A)) :
  Sorted (fun a b => (fst b <= fst a)%Q) (sort_desc l).
Proof.
  induction l as [|x l IH]; [constructor|].
  change (sort_desc (x :: l)) with (insert_desc x (sort_desc l)).
  now apply insert_desc_Sorted.
Qed.

(** The head of the sorted list is the first entry of largest key: what
    comes before it in the input is strictly smaller, what comes after
    is not larger. *)
Lemma sort_desc_head (l : list A) :
  l <> [] ->
  exists best tail pre post,
    sort_desc (keyed key l) = (key best, best) :: tail
    /\ l = (pre ++ best :: post)%list
    /\ Forall (fun x => (key x < key best)%Q) pre
    /\ Forall (fun x => (key x <= key best)%Q) post.
Proof.
  induction l as [|a l IH]; [congruence|]. intros _.
  destruct l as [|b l].
  - exists a, [], [], []. repeat split; constructor.
  - destruct IH as (best & tail & pre & post & Hs & Hl & Hpre & Hpost);
      [discriminate|].
    change (sort_desc (keyed key (a :: b :: l)))
      with (insert_desc (key a, a) (sort_desc (keyed key (b :: l)))).
    rewrite Hs. cbn [insert_desc fst].
    destruct (Qltb (key a) (key best)) eqn:E.
    + apply Qltb_lt in E.
      exists best, (insert_desc (key a, a) tail), (a :: pre), post.
      repeat split; [now rewrite Hl | now constructor | assumption].
    + apply Qltb_ge in E.
      exists a, ((key best, best) :: tail), [], (b :: l).
      repeat split; [constructor|]. rewrite Hl.
      apply Forall_app. split; [|constructor].
      * eapply Forall_impl; [exact Hpre|]. intros x Hx. simpl in Hx.
        apply Qlt_le_weak. eapply Qlt_le_trans; eassumption.
      * exact E.
      * eapply Forall_impl; [exact Hpost|]. intros x Hx. simpl in Hx.
        eapply Qle_trans; eassumption.
Qed.
End StableSort.

Lemma filter_split {A : Type} (P : A -> Prop) `{forall x, Decision (P x)}
    (l pre post : list A) (x : A) :
  filter P l = (pre ++ x :: post)%list ->
  exists before after,
    l = (before ++ x :: after)%list
    /\ filter P before = pre /\ filter P after = post /\ P x.
Proof.
  revert pre. induction l as [|a l IH]; intros pre E.
  - destruct pre; discriminate.
  - destruct (decide (P a)) as [Ha|Ha].
    + rewrite filter_cons_True in E by assumption.
      destruct pre as [|p pre]; simpl in E; injection E as -> E.
      * exists [], l. repeat split; auto.
      * destruct (IH _ E) as (before & after & -> & Hb & Ha' & Hx).
        exists (p :: before), after. repeat split; auto.
        rewrite filter_cons_True by assumption. now rewrite Hb.
    + rewrite filter_cons_False in E by assumption.
      destruct (IH _ E) as (before & after & -> & Hb & Ha' & Hx).
      exists (a :: before), after. repeat split; auto.
      now rewrite filter_cons_False by assumption.
Qed.

Lemma filter_none {A : Type} (P : A -> Prop) `{forall x, Decision (P x)}
    (l : list A) :
  Forall (fun x => ~ P x) l -> filter P l = [].
Proof.
  induction 1 as [|x l Hx _ IH]; [reflexivity|].
  now rewrite filter_cons_False.
Qed.

Lemma filter_nil_inv {A : Type} (P : A -> Prop) `{forall x, Decision (P x)}
    (l : list A) :
  filter P l = [] -> Forall (fun x => ~ P x) l.
Proof.
  induction l as [|a l IH]; intros E; [constructor|].
  destruct (decide (P a)) as [Ha|Ha].
  - rewrite filter_cons_True in E by assumption. discriminate.
  - rewrite filter_cons_False in E by assumption. constructor; auto.
Qed.

Lemma select_all_exhausted (strategies : list RecoveryStrategy)
    (context : ErrorContext) :
  Forall (fun s => max_attempts s < attempt_count context) strategies ->
  _select_best_strategy strategies context = Ok (exhausted_strategy context).
Proof.
  intros H. unfold _select_best_strategy.
  rewrite filter_none; [reflexivity|].
  eapply Forall_impl; [exact H|]. intros s Hs. simpl in Hs. lia.
Qed.

(** C1, as the code has it.  When the attempt count exceeds the
    [max_attempts] of every candidate (in particular for the empty list),
    selection raises nothing and returns the fabricated strategy:
    [ESCALATE_TO_HUMAN], message "All recovery strategies exhausted for
    <tool>" (capital A), urgency "high", one attempt, success probability
    0.9, estimated time 300 seconds. *)
Theorem select_exhausted_escalates (strategies : list RecoveryStrategy)
    (context : ErrorContext) :
  Forall (fun s => max_attempts s < attempt_count context) strategies ->
  _select_best_strategy strategies context =
    Ok {| action := ESCALATE_TO_HUMAN;
          strategy_parameters :=
            {[ "message" :=
                 VStr ("All recovery strategies exhausted for "
                       ++ tool_name context);
               "urgency" := VStr "high" ]};
          max_attempts := 1;
          backoff_multiplier := 1;
          success_probability := 9#10;
          estimated_time := 300 |}.
Proof.
  intros H. rewrite (select_all_exhausted _ _ H). reflexivity.
Qed.

Lemma select_exhausted_escalates_witness :
  _select_best_strategy (catalog RATE_LIMITED) (context_of "gobuster" 6) =
    Ok {| action := ESCALATE_TO_HUMAN;
          strategy_parameters :=
            {[ "message" :=
                 VStr "All recovery strategies exhausted for gobuster";
               "urgency" := VStr "high" ]};
          max_attempts := 1;
          backoff_multiplier := 1;
          success_probability := 9#10;
          estimated_time := 300 |}.
Proof.
  apply (select_exhausted_escalates (catalog RATE_LIMITED)
           (context_of "gobuster" 6)).
  repeat constructor.
Defined.

(** C1 as stated fails on the letter case of the message: for the
    rate-limited candidates at attempt 6 the message is not the lower-case
    one. *)
Lemma select_exhausted_message_counterexample :
  Forall (fun s => max_attempts s < attempt_count (context_of "gobuster" 6))
    (catalog RATE_LIMITED)
  /\ exists s,
      _select_best_strategy (catalog RATE_LIMITED) (context_of "gobuster" 6)
        = Ok s
      /\ strategy_parameters s !! "message"
         = Some (VStr "All recovery strategies exhausted for gobuster")
      /\ strategy_parameters s !! "message"
         <> Some (VStr "all recovery strategies exhausted for gobuster").
Proof.
  split; [repeat constructor|].
  eexists. split; [apply select_all_exhausted; repeat constructor|].
  split; [reflexivity | discriminate].
Qed.

(** On a tie the candidate declared first is returned. *)
Example select_tie_keeps_declared_order :
  (score tie_first 1 == score tie_second 1)%Q
  /\ _select_best_strategy [tie_first; tie_second] (context_of "nmap" 1)
     = Ok tie_first
  /\ _select_best_strategy [tie_second; tie_first] (context_of "nmap" 1)
     = Ok tie_second.
Proof. repeat apply conj; vm_compute; reflexivity. Qed.

(* --------------------------------------------------------------------- *)
(** ** Parameter adjustment                                               *)
(* --------------------------------------------------------------------- *)

Lemma dict_get_elem_of {K V : Type} `{EqDecision K} (d : list (K * V))
    (k : K) (v : V) :
  dict_get d k = Some v -> (k, v) ∈ d.
Proof.
  induction d as [|[k' v'] d IH]; cbn [dict_get]; [discriminate|].
  destruct (decide (k' = k)) as [->|_].
  - intros [= ->]. left.
  - intros E. right. now apply IH.
Qed.

(** No declared delta is empty, so the test [if not adjustments] succeeds
    exactly when nothing is declared for the tool and the kind. *)
Lemma declared_deltas_not_empty :
  Forall (fun entry =>
            Forall (fun row => snd row <> (∅ : gmap string pyval)) (snd entry))
         parameter_adjustments.
Proof.
  assert (H : forallb (fun entry : string * list (ErrorType * gmap string pyval) =>
                 forallb (fun row : ErrorType * gmap string pyval =>
                            negb (bool_decide (snd row = ∅)))
                         (snd entry))
              parameter_adjustments = true) by (vm_compute; reflexivity).
  apply Forall_forall. intros entry Hin.
  apply Forall_forall. intros row Hrow.
  rewrite forallb_forall in H.
  specialize (H entry (proj1 (list_elem_of_In _ _) Hin)).
  rewrite forallb_forall in H.
  specialize (H row (proj1 (list_elem_of_In _ _) Hrow)).
  apply negb_true_iff, bool_decide_eq_false in H. exact H.
Qed.

Lemma auto_adjust_parameters_update (tool : string) (kind : ErrorType)
    (original : gmap string pyval) :
  auto_adjust_parameters tool kind original
  = dict_update original (applicable_delta tool kind).
Proof.
  unfold auto_adjust_parameters, declared_adjustments, applicable_delta.
  destruct (dict_get parameter_adjustments tool) as [per_kind|] eqn:Ht;
    cbn [default from_option id].
  - destruct (dict_get per_kind kind) as [delta|] eqn:Hk;
      cbn [default from_option id].
    + destruct (decide (delta = ∅)) as [E|_]; [|reflexivity].
      exfalso. pose proof declared_deltas_not_empty as H.
      rewrite Forall_forall in H.
      specialize (H _ (dict_get_elem_of _ _ _ Ht)). cbn [snd] in H.
      rewrite Forall_forall in H.
      exact (H _ (dict_get_elem_of _ _ _ Hk) E).
    + destruct (decide (∅ = ∅)); [reflexivity | congruence].
  - cbn [dict_get default from_option id].
    destruct (decide (∅ = ∅)); [reflexivity | congruence].
Qed.

(** The delta the code applies is the one the specification expects. *)
Lemma applicable_delta_expected (tool : string) (kind : ErrorType) :
  applicable_delta tool kind = expected_delta tool kind.
Proof.
  unfold applicable_delta, expected_delta.
  destruct (dict_get parameter_adjustments tool) as [per_kind|];
    [destruct (dict_get per_kind kind)|];
    try reflexivity; destruct kind; reflexivity.
Qed.

(** C5.  Whatever the tool, the kind and the original parameters, a key
    of the applicable delta has the delta's value in the result and any
    other key has what the original holds for it (still absent when it was
    absent): no key of the original is dropped.  The applicable delta is
    the one declared for the tool and the kind; failing that, the generic
    one of the kind: [{"timeout": "60", "threads": "5"}] for a timeout,
    [{"delay": "2s", "threads": "3"}] for rate limiting,
    [{"threads": "3", "memory_limit": "1G"}] for resource exhaustion, and
    the empty one for every other kind.  For nmap on a timeout, "target" is
    kept and "timing" is injected; sqlmap, for which nothing is declared,
    gets the generic deltas, and nmap gets none for a kind without a
    delta. *)
Theorem auto_adjust_parameters_frame :
  (forall (tool : string) (kind : ErrorType) (original : gmap string pyval)
          (key : string),
      auto_adjust_parameters tool kind original !! key
      = match expected_delta tool kind !! key with
        | Some v => Some v
        | None => original !! key
        end)
  /\ (forall (tool : string) (kind : ErrorType) (original : gmap string pyval)
             (key : string),
      auto_adjust_parameters tool kind original !! key
      = match applicable_delta tool kind !! key with
        | Some v => Some v
        | None => original !! key
        end)
  /\ (forall (tool : string) (kind : ErrorType)
             (original : gmap string pyval),
      dom original ⊆ dom (auto_adjust_parameters tool kind original))
  /\ (forall (tool : string) (original : gmap string pyval),
      dict_get parameter_adjustments tool = None ->
      auto_adjust_parameters tool TIMEOUT original
      = {[ "timeout" := VStr "60"; "threads" := VStr "5" ]} ∪ original
      /\ auto_adjust_parameters tool RATE_LIMITED original
         = {[ "delay" := VStr "2s"; "threads" := VStr "3" ]} ∪ original
      /\ auto_adjust_parameters tool RESOURCE_EXHAUSTED original
         = {[ "threads" := VStr "3"; "memory_limit" := VStr "1G" ]} ∪ original)
  /\ (forall (tool : string) (kind : ErrorType)
             (original : gmap string pyval),
      kind <> TIMEOUT -> kind <> RATE_LIMITED -> kind <> RESOURCE_EXHAUSTED ->
      auto_adjust_parameters tool kind original = original)
  /\ auto_adjust_parameters "nmap" TIMEOUT {[ "target" := VStr "x" ]}
     = {[ "target" := VStr "x"; "timing" := VStr "-T2";
          "reduce_ports" := VBool true ]}
  /\ auto_adjust_parameters "sqlmap" TIMEOUT
       {[ "target" := VStr "x"; "threads" := VStr "50" ]}
     = {[ "target" := VStr "x"; "timeout" := VStr "60"; "threads" := VStr "5" ]}
  /\ auto_adjust_parameters "sqlmap" RATE_LIMITED {[ "target" := VStr "x" ]}
     = {[ "target" := VStr "x"; "delay" := VStr "2s"; "threads" := VStr "3" ]}
  /\ auto_adjust_parameters "nmap" RESOURCE_EXHAUSTED {[ "target" := VStr "x" ]}
     = {[ "target" := VStr "x"; "max_parallelism" := VStr "10" ]}
  /\ auto_adjust_parameters "sqlmap" RESOURCE_EXHAUSTED
       {[ "target" := VStr "x" ]}
     = {[ "target" := VStr "x"; "threads" := VStr "3";
          "memory_limit" := VStr "1G" ]}
  /\ auto_adjust_parameters "nmap" PERMISSION_DENIED {[ "target" := VStr "x" ]}
     = {[ "target" := VStr "x" ]}.
Proof.
  assert (Hk : forall tool kind original key,
             auto_adjust_parameters tool kind original !! key
             = match applicable_delta tool kind !! key with
               | Some v => Some v
               | None => original !! key
               end).
  { intros tool kind original key. rewrite auto_adjust_parameters_update.
    unfold dict_update. rewrite lookup_union.
    destruct (applicable_delta tool kind !! key), (original !! key);
      reflexivity. }
  split; [|split; [exact Hk|split; [|split; [|split]]]].
  - intros tool kind original key.
    rewrite <- applicable_delta_expected. apply Hk.
  - intros tool kind original key Hin.
    apply elem_of_dom in Hin as [v Hv]. apply elem_of_dom.
    rewrite Hk, Hv. destruct (applicable_delta tool kind !! key); eauto.
  - intros tool original Hnone.
    repeat apply conj;
      rewrite auto_adjust_parameters_update, applicable_delta_expected;
      unfold expected_delta, dict_update; rewrite Hnone; reflexivity.
  - intros tool kind original Ht Hr Hx.
    rewrite auto_adjust_parameters_update, applicable_delta_expected.
    unfold expected_delta, dict_update.
    assert (Hg : generic_delta kind = ∅) by (destruct kind; try reflexivity; congruence).
    destruct (dict_get parameter_adjustments tool) as [per_kind|] eqn:Et.
    + destruct (dict_get per_kind kind) as [delta|] eqn:Ek.
      * exfalso.
        assert (Hb : forallb
                  (fun entry : string * list (ErrorType * gmap string pyval) =>
                     forallb (fun row : ErrorType * gmap string pyval =>
                                adjustable (fst row))
                             (snd entry))
                  parameter_adjustments = true) by (vm_compute; reflexivity).
        rewrite forallb_forall in Hb.
        specialize (Hb _ (proj1 (list_elem_of_In _ _)
                            (dict_get_elem_of _ _ _ Et))).
        rewrite forallb_forall in Hb.
        specialize (Hb _ (proj1 (list_elem_of_In _ _)
                            (dict_get_elem_of _ _ _ Ek))).
        cbn [fst] in Hb. destruct kind; try discriminate Hb; congruence.
      * rewrite Hg. apply map_eq. intros key.
        now rewrite lookup_union, lookup_empty, (left_id_L None _).
    + rewrite Hg. apply map_eq. intros key.
      now rewrite lookup_union, lookup_empty, (left_id_L None _).
  - repeat apply conj; vm_compute; reflexivity.
Qed.

(* --------------------------------------------------------------------- *)
(** ** End to end: gobuster, rate limited                                 *)
(* --------------------------------------------------------------------- *)

(** C4 as stated fails on its last part: the gobuster delta declared for
    rate limiting sets "delay", not "rate-limit". *)
Lemma gobuster_rate_limited_counterexample :
  auto_adjust_parameters "gobuster" RATE_LIMITED {[ "threads" := VStr "50" ]}
  <> {[ "threads" := VStr "5"; "rate-limit" := VStr "10" ]}.
Proof.
  intros E.
  apply (f_equal (fun m : gmap string pyval => m !! "delay")) in E.
  vm_compute in E. discriminate E.
Qed.

(** C4, amended.  For gobuster failing with "rate limit exceeded (429)" at
    attempt 1 the kind is [RATE_LIMITED]; the facade selects the backoff
    retry, the first of the two rate-limited candidates (score 0.72 against
    0.68 for the parameter adjustment); and adjusting [{"threads": "50"}]
    gives exactly [{"threads": "5", "delay": "1s"}]. *)
Theorem gobuster_rate_limited_end_to_end :
  classify_error "rate limit exceeded (429)" None = RATE_LIMITED
  /\ (forall (env : Environment) (self : Handler) (target : option string)
             (params : option (gmap string pyval)),
      exists retry adjust,
        catalog RATE_LIMITED = [retry; adjust]
        /\ action retry = RETRY_WITH_BACKOFF
        /\ action adjust = ADJUST_PARAMETERS
        /\ (score retry 1 == 72#100)%Q
        /\ (score adjust 1 == 68#100)%Q
        /\ fst (handle_tool_failure env self "gobuster"
                  (plain_exception "rate limit exceeded (429)")
                  (mkCallContext target params (Some 1)))
           = Ok retry)
  /\ auto_adjust_parameters "gobuster" RATE_LIMITED {[ "threads" := VStr "50" ]}
     = {[ "threads" := VStr "5"; "delay" := VStr "1s" ]}.
Proof.
  split; [vm_compute; reflexivity|]. split; [|vm_compute; reflexivity].
  intros env self target params.
  eexists _, _. split; [reflexivity|].
  do 4 (split; [reflexivity|]).
  assert (Hc : classify_error
                 (exception_str (plain_exception "rate limit exceeded (429)"))
                 (Some (plain_exception "rate limit exceeded (429)"))
               = RATE_LIMITED) by (vm_compute; reflexivity).
  unfold handle_tool_failure. rewrite Hc. reflexivity.
Qed.

(* --------------------------------------------------------------------- *)
(** ** Tool substitution                                                  *)
(* --------------------------------------------------------------------- *)

Lemma filter_alternatives_surviving (context : gmap string pyval)
    (l acc : list string) :
  filter_alternatives context l acc = (acc ++ surviving context l)%list.
Proof.
  revert acc. induction l as [|alt l IH]; intros acc; cbn [filter_alternatives].
  - unfold surviving. now rewrite filter_nil, app_nil_r.
  - unfold surviving in *. destruct (skipped context alt) eqn:E.
    + rewrite filter_cons_False by congruence. apply IH.
    + rewrite filter_cons_True by assumption.
      rewrite IH, <- app_assoc. reflexivity.
Qed.

(** Every tool of the table has at least one alternative. *)
Lemma tool_alternatives_not_empty (tool : string) (l : list string) :
  dict_get tool_alternatives tool = Some l -> l <> [].
Proof.
  intros H%dict_get_elem_of.
  assert (Hb : forallb (fun entry : string * list string =>
                          negb (bool_decide (snd entry = [])))
                 tool_alternatives = true) by (vm_compute; reflexivity).
  rewrite forallb_forall in Hb.
  specialize (Hb _ (proj1 (list_elem_of_In _ _) H)).
  apply negb_true_iff, bool_decide_eq_false in Hb. exact Hb.
Qed.

(** The two tests of the loop skip exactly what the constraints
    exclude. *)
Lemma skipped_excluded (context : gmap string pyval) (alt : string) :
  skipped context alt = false <-> ~ excluded context alt.
Proof.
  assert (Hflag : forall flag,
             truthy (context !! flag) = true <-> flag_set context flag).
  { intros flag. unfold flag_set, truthy.
    destruct (context !! flag) as [[s|b|n]|].
    - rewrite negb_true_iff. destruct (String.eqb_spec s ""); split;
        congruence.
    - reflexivity.
    - rewrite negb_true_iff. destruct (Z.eqb_spec n 0); split;
        congruence || lia.
    - split; [discriminate | contradiction]. }
  assert (Hpriv : str_in alt ["nmap"; "masscan"] = true
                  <-> requires_privileges alt).
  { unfold str_in, requires_privileges. cbn [existsb].
    rewrite !orb_true_iff, !String.eqb_eq. intuition discriminate. }
  assert (Hslow : str_in alt ["amass"; "w3af"] = true <-> slow alt).
  { unfold str_in, slow. cbn [existsb].
    rewrite !orb_true_iff, !String.eqb_eq. intuition discriminate. }
  unfold excluded. rewrite <- !Hflag, <- Hpriv, <- Hslow.
  unfold skipped. rewrite <- not_true_iff_false.
  rewrite orb_true_iff, !andb_true_iff. reflexivity.
Qed.

Lemma surviving_not_excluded (context : gmap string pyval)
    (l : list string) :
  surviving context l = filter (fun alt => ~ excluded context alt) l.
Proof.
  unfold surviving. apply list_filter_iff. intros alt.
  apply skipped_excluded.
Qed.

(** C7.  The lookup returns [None] exactly when the tool has no declared
    alternative, that is when it is not in the table.  Otherwise it returns
    the first declared alternative that the constraints do not exclude, and
    the first declared alternative when they exclude all of them.  A set
    [require_no_privileges] excludes nmap and masscan, a set
    [prefer_faster_tools] excludes amass and w3af; an alternative among nmap
    and masscan is returned under [require_no_privileges] only if every
    declared alternative is excluded.  For nmap under
    [require_no_privileges] the answer is rustscan; for masscan it is nmap
    without the flag and rustscan with it; for subfinder it is amass without
    [prefer_faster_tools] and assetfinder with it; for rustscan, whose
    alternatives all need privileges, it is the first declared one, nmap. *)
Theorem get_alternative_tool_spec :
  (forall (failed_tool : string) (context : gmap string pyval),
      (get_alternative_tool failed_tool context = None
       <-> declared_alternatives failed_tool = [])
      /\ (get_alternative_tool failed_tool context = None
          <-> dict_get tool_alternatives failed_tool = None)
      /\ get_alternative_tool failed_tool context
         = match filter (fun alt => ~ excluded context alt)
                        (declared_alternatives failed_tool) with
           | alt :: _ => Some alt
           | [] => head (declared_alternatives failed_tool)
           end
      /\ get_alternative_tool failed_tool context
         = match surviving context (declared_alternatives failed_tool) with
           | alt :: _ => Some alt
           | [] => head (declared_alternatives failed_tool)
           end)
  /\ (forall (failed_tool : string) (context : gmap string pyval)
             (alt : string),
      flag_set context "require_no_privileges" ->
      get_alternative_tool failed_tool context = Some alt ->
      alt = "nmap" \/ alt = "masscan" ->
      Forall (excluded context) (declared_alternatives failed_tool))
  /\ (forall (failed_tool : string) (context : gmap string pyval)
             (alt : string),
      truthy (context !! "require_no_privileges") = true ->
      get_alternative_tool failed_tool context = Some alt ->
      alt = "nmap" \/ alt = "masscan" ->
      Forall (fun a => skipped context a = true)
             (declared_alternatives failed_tool))
  /\ get_alternative_tool "nmap" {[ "require_no_privileges" := VBool true ]}
     = Some "rustscan"
  /\ get_alternative_tool "rustscan" {[ "require_no_privileges" := VBool true ]}
     = Some "nmap"
  /\ get_alternative_tool "masscan" ∅ = Some "nmap"
  /\ get_alternative_tool "masscan" {[ "require_no_privileges" := VBool true ]}
     = Some "rustscan"
  /\ get_alternative_tool "masscan" {[ "require_no_privileges" := VBool false ]}
     = Some "nmap"
  /\ get_alternative_tool "masscan" {[ "prefer_faster_tools" := VBool true ]}
     = Some "nmap"
  /\ get_alternative_tool "subfinder" ∅ = Some "amass"
  /\ get_alternative_tool "subfinder" {[ "prefer_faster_tools" := VBool true ]}
     = Some "assetfinder"
  /\ get_alternative_tool "subfinder" {[ "require_no_privileges" := VBool true ]}
     = Some "amass"
  /\ get_alternative_tool "hydra" {[ "require_no_privileges" := VBool true ]}
     = None.
Proof.
  assert (Hget : forall failed_tool context,
             get_alternative_tool failed_tool context
             = match surviving context (declared_alternatives failed_tool) with
               | alt :: _ => Some alt
               | [] => head (declared_alternatives failed_tool)
               end).
  { intros failed_tool context.
    unfold get_alternative_tool. fold (declared_alternatives failed_tool).
    destruct (declared_alternatives failed_tool) as [|a l] eqn:Hd.
    - reflexivity.
    - rewrite filter_alternatives_surviving. cbn [app].
      destruct (surviving context (a :: l)); reflexivity. }
  assert (Hnone : forall failed_tool context,
             get_alternative_tool failed_tool context = None
             <-> declared_alternatives failed_tool = []).
  { intros failed_tool context. rewrite Hget.
    destruct (declared_alternatives failed_tool) as [|a l].
    - unfold surviving. now rewrite filter_nil.
    - destruct (surviving context (a :: l)); cbn [head]; split; discriminate. }
  assert (Hall : forall failed_tool context alt,
             truthy (context !! "require_no_privileges") = true ->
             get_alternative_tool failed_tool context = Some alt ->
             alt = "nmap" \/ alt = "masscan" ->
             Forall (fun a => skipped context a = true)
                    (declared_alternatives failed_tool)).
  { intros failed_tool context alt Hpriv Hres Halt.
    rewrite Hget in Hres.
    destruct (surviving context (declared_alternatives failed_tool))
      as [|s l] eqn:Hs.
    + apply Forall_forall. intros a Ha.
      destruct (skipped context a) eqn:Hsk; [reflexivity|].
      assert (Hin : a ∈ surviving context (declared_alternatives failed_tool))
        by (apply list_elem_of_filter; now split).
      rewrite Hs in Hin. inversion Hin.
    + injection Hres as ->.
      assert (Hin : alt ∈ surviving context (declared_alternatives failed_tool))
        by (rewrite Hs; left).
      apply list_elem_of_filter in Hin as [Hsk _].
      unfold skipped in Hsk. rewrite Hpriv in Hsk.
      destruct Halt as [-> | ->]; discriminate Hsk. }
  split; [|split; [|split; [exact Hall|]]].
  - intros failed_tool context. split; [apply Hnone|].
    split; [|split; [|apply Hget]].
    + rewrite Hnone. unfold declared_alternatives.
      destruct (dict_get tool_alternatives failed_tool) as [l|] eqn:E;
        cbn [default from_option id].
      * pose proof (tool_alternatives_not_empty _ _ E). split; congruence.
      * split; reflexivity.
    + rewrite Hget, surviving_not_excluded. reflexivity.
  - intros failed_tool context alt Hflag Hres Halt.
    assert (Hpriv : truthy (context !! "require_no_privileges") = true).
    { destruct (truthy (context !! "require_no_privileges")) eqn:E;
        [reflexivity|].
      exfalso. assert (Hsk : skipped context "nmap" = false)
        by (unfold skipped; rewrite E;
            change (str_in "nmap" ["amass"; "w3af"]) with false;
            apply andb_false_r).
      apply skipped_excluded in Hsk. apply Hsk. left. split; [exact Hflag|].
      now left. }
    eapply Forall_impl; [exact (Hall _ _ _ Hpriv Hres Halt)|].
    intros a Ha. cbn beta in Ha.
    destruct (decide (excluded context a)) as [He|He]; [exact He|].
    apply skipped_excluded in He. congruence.
  - repeat apply conj; vm_compute; reflexivity.
Qed.

(* --------------------------------------------------------------------- *)
(** ** The incident ledger                                                *)
(* --------------------------------------------------------------------- *)

(** The slice [l[-n:]] for a positive [n] keeps the last [n] entries. *)
Lemma slice_from_last {A : Type} (n : Z) (l : list A) :
  0 < n -> slice_from (- n) l = drop (length l - Z.to_nat n) l.
Proof.
  intros Hn. unfold slice_from.
  destruct (- n <? 0) eqn:E; [|apply Z.ltb_ge in E; lia].
  f_equal. lia.
Qed.

Lemma _add_to_history_last (self : Handler) (x : ErrorContext) :
  0 < max_history_size self ->
  error_history (_add_to_history self x)
  = drop (length (error_history self ++ [x])%list
          - Z.to_nat (max_history_size self))
         (error_history self ++ [x])%list
  /\ max_history_size (_add_to_history self x) = max_history_size self.
Proof.
  intros Hcap. unfold _add_to_history.
  destruct (max_history_size self <? _) eqn:E; cbn [error_history max_history_size].
  - split; [|reflexivity]. now apply slice_from_last.
  - split; [|reflexivity]. apply Z.ltb_ge in E.
    replace (_ - _)%nat with 0%nat by lia. reflexivity.
Qed.

(** After any appends the ledger holds the last [max_history_size] entries
    of what it held followed by what was appended, or all of them when they
    are fewer. *)
Lemma add_all_last (incidents : list ErrorContext) (self : Handler) :
  0 < max_history_size self ->
  Z.of_nat (length (error_history self)) <= max_history_size self ->
  error_history (add_all self incidents)
  = drop (length (error_history self ++ incidents)%list
          - Z.to_nat (max_history_size self))
         (error_history self ++ incidents)%list
  /\ max_history_size (add_all self incidents) = max_history_size self.
Proof.
  revert self. induction incidents as [|x incidents IH]; intros self Hcap Hlen.
  - cbn [add_all foldl]. rewrite app_nil_r. split; [|reflexivity].
    replace (_ - _)%nat with 0%nat by lia. reflexivity.
  - cbn [add_all foldl]. fold (add_all (_add_to_history self x) incidents).
    destruct (_add_to_history_last self x Hcap) as [Hh Hc].
    destruct (IH (_add_to_history self x)) as [IHh IHc].
    + lia.
    + rewrite Hh, Hc, length_drop. lia.
    + split; [|congruence]. rewrite IHh, Hh, Hc.
      set (cap := Z.to_nat (max_history_size self)).
      set (a := (error_history self ++ [x])%list).
      replace (error_history self ++ x :: incidents)%list
        with (a ++ incidents)%list by (unfold a; now rewrite <- app_assoc).
      assert (Hk : (length a - cap <= length a)%nat) by lia.
      rewrite <- (drop_app_le a incidents _ Hk), drop_drop.
      f_equal. rewrite length_drop, !length_app. lia.
Qed.

(** C6.  For a positive capacity (1000 by default) and a ledger within
    it, any sequence of appends leaves at most [max_history_size]
    incidents, and the capacity unchanged; appending capacity + 1 incidents
    leaves exactly capacity incidents: the appended ones but the first, in
    the order of their appending. *)
Theorem ledger_bounded_fifo (self : Handler) (incidents : list ErrorContext) :
  0 < max_history_size self ->
  Z.of_nat (length (error_history self)) <= max_history_size self ->
  max_history_size init_handler = 1000
  /\ Z.of_nat (length (error_history (add_all self incidents)))
     <= max_history_size self
  /\ max_history_size (add_all self incidents) = max_history_size self
  /\ (Z.of_nat (length incidents) = max_history_size self + 1 ->
      error_history (add_all self incidents) = drop 1 incidents
      /\ Z.of_nat (length (error_history (add_all self incidents)))
         = max_history_size self).
Proof.
  intros Hcap Hlen.
  destruct (add_all_last incidents self Hcap Hlen) as [Hh Hc].
  split; [reflexivity|]. split; [|split; [exact Hc|]].
  - rewrite Hh, length_drop. lia.
  - intros Hn. rewrite Hh, length_app.
    rewrite drop_app_ge by lia.
    replace (_ - _)%nat with 1%nat by lia.
    split; [reflexivity|]. rewrite length_drop. lia.
Qed.

Lemma ledger_bounded_fifo_witness :
  error_history
    (add_all (mkHandler [] 2)
       [context_of "nmap" 1; context_of "nmap" 2; context_of "nmap" 3])
  = [context_of "nmap" 2; context_of "nmap" 3].
Proof.
  destruct (ledger_bounded_fifo (mkHandler [] 2)
              [context_of "nmap" 1; context_of "nmap" 2; context_of "nmap" 3])
    as (_ & _ & _ & H).
  - reflexivity.
  - cbn. lia.
  - destruct H as [H _]; [reflexivity|]. exact H.
Defined.

(** Why the capacity is taken positive: [l[-0:]] is the whole of [l], so a
    ledger of capacity 0 would keep everything. *)
Remark slice_from_zero_keeps_all :
  error_history (_add_to_history (mkHandler [] 0) (context_of "nmap" 1))
  = [context_of "nmap" 1].
Proof. reflexivity. Qed.

(** The ledger of a fresh handler, after any appends, holds at most 1000
    incidents. *)
Corollary fresh_ledger_bounded (incidents : list ErrorContext) :
  Z.of_nat (length (error_history (add_all init_handler incidents))) <= 1000.
Proof.
  destruct (add_all_last incidents init_handler) as [Hh _];
    [reflexivity | cbn; lia |].
  rewrite Hh, length_drop. cbn [max_history_size init_handler]. lia.
Qed.

(* --------------------------------------------------------------------- *)
(** ** Statistics                                                         *)
(* --------------------------------------------------------------------- *)

Lemma foldl_bump_lookup (f : ErrorContext -> string)
    (history : list ErrorContext) (m : gmap string Z) (key : string) :
  foldl (fun m e => bump (f e) m) m history !! key
  = match occurrences f key history with
    | O => m !! key
    | S _ => Some (default 0 (m !! key)
                   + Z.of_nat (occurrences f key history))
    end.
Proof.
  revert m. induction history as [|e history IH]; intros m; [reflexivity|].
  cbn [foldl]. rewrite IH. unfold occurrences.
  destruct (decide (f e = key)) as [E|E].
  - rewrite filter_cons_True by exact E. cbn [length].
    unfold bump. rewrite E, lookup_insert_eq. cbn [default from_option id].
    destruct (length (filter _ history)); f_equal; lia.
  - rewrite filter_cons_False by exact E.
    unfold bump. rewrite lookup_insert_ne by exact E. reflexivity.
Qed.

Lemma stats_loop_spec (clock : nat -> Z) (history : list ErrorContext)
    (i : nat) (acc : StatsAcc) :
  error_counts (stats_loop clock i history acc)
  = foldl (fun m e => bump (kind_of e) m) (error_counts acc) history
  /\ tool_errors (stats_loop clock i history acc)
     = foldl (fun m e => bump (tool_name e) m) (tool_errors acc) history
  /\ recent_errors (stats_loop clock i history acc)
     = (recent_errors acc ++ recent_entries clock i history)%list.
Proof.
  revert i acc. induction history as [|e history IH]; intros i acc.
  - cbn [stats_loop foldl recent_entries]. now rewrite app_nil_r.
  - cbn [stats_loop foldl recent_entries].
    destruct (IH (S i) (stats_step (clock i) acc e)) as (H1 & H2 & H3).
    rewrite H1, H2, H3. unfold stats_step at 1 2 3.
    cbn [error_counts tool_errors recent_errors].
    repeat split.
    destruct (clock i - timestamp e <? one_hour); [|reflexivity].
    now rewrite <- app_assoc.
Qed.

Lemma recent_entries_length (clock : nat -> Z) (history : list ErrorContext)
    (i : nat) :
  (length (recent_entries clock i history) <= length history)%nat.
Proof.
  revert i. induction history as [|e history IH]; intros i; cbn; [lia|].
  specialize (IH (S i)). destruct (_ <? _); cbn; lia.
Qed.

(** C9 as stated fails on an empty history: the result then has the
    total only. *)
Lemma statistics_empty_counterexample :
  error_history init_handler = []
  /\ get_error_statistics (fun _ => 0) init_handler
     = {[ "total_errors" := SInt 0 ]}
  /\ get_error_statistics (fun _ => 0) init_handler !! "error_counts_by_type"
     = None
  /\ get_error_statistics (fun _ => 0) init_handler !! "error_counts_by_tool"
     = None
  /\ get_error_statistics (fun _ => 0) init_handler !! "recent_errors_count"
     = None
  /\ get_error_statistics (fun _ => 0) init_handler !! "recent_errors"
     = None.
Proof. repeat apply conj; reflexivity. Qed.

(** C9, amended.  On an empty history the statistics hold the total 0
    and nothing else.  On any other history they hold the five components,
    computed from the ledger as it is: the number of incidents; for each
    kind, and for each tool, the number of incidents of it (no entry when
    there is none); the number of incidents less than an hour old; and the
    last 10 of those, in ledger order. *)
Theorem get_error_statistics_spec (clock : nat -> Z) (self : Handler) :
  (error_history self = []
   /\ get_error_statistics clock self = {[ "total_errors" := SInt 0 ]})
  \/ (error_history self <> []
      /\ exists (by_type by_tool : gmap string Z) (recent : list RecentError),
          get_error_statistics clock self
          = {[ "total_errors" := SInt (Z.of_nat (length (error_history self)));
               "error_counts_by_type" := SCounts by_type;
               "error_counts_by_tool" := SCounts by_tool;
               "recent_errors_count" := SInt (Z.of_nat (length recent));
               "recent_errors" := SRecent (drop (length recent - 10) recent) ]}
          /\ (forall key,
                by_type !! key
                = count_entry (occurrences kind_of key (error_history self)))
          /\ (forall tool,
                by_tool !! tool
                = count_entry (occurrences tool_name tool (error_history self)))
          /\ recent = recent_entries clock 0 (error_history self)
          /\ (length recent <= length (error_history self))%nat
          /\ (length (drop (length recent - 10) recent) <= 10)%nat).
Proof.
  unfold get_error_statistics.
  destruct (error_history self) as [|e history] eqn:Hh; [left; now split|].
  right. split; [discriminate|].
  destruct (stats_loop_spec clock (e :: history) 0 (mkStatsAcc ∅ ∅ []))
    as (H1 & H2 & H3).
  cbn [error_counts tool_errors recent_errors app] in H1, H2, H3.
  eexists _, _, _.
  split; [|split; [|split; [|split; [reflexivity|split]]]].
  - rewrite H1, H2, H3. rewrite (slice_from_last 10) by lia. reflexivity.
  - intros key. rewrite foldl_bump_lookup, lookup_empty.
    destruct (occurrences _ _ _); cbn [count_entry default from_option id];
      f_equal; lia.
  - intros tool. rewrite foldl_bump_lookup, lookup_empty.
    destruct (occurrences _ _ _); cbn [count_entry default from_option id];
      f_equal; lia.
  - apply recent_entries_length.
  - rewrite length_drop. lia.
Qed.

(* ===================================================================== *)
(** * Further properties                                                  *)
(* ===================================================================== *)

(* --------------------------------------------------------------------- *)
(** ** The facade                                                         *)
(* --------------------------------------------------------------------- *)

(** Selection never raises: it returns a candidate within its budget, or
    the fabricated strategy when no candidate is. *)
Lemma select_cases (strategies : list RecoveryStrategy)
    (context : ErrorContext) :
  exists s,
    _select_best_strategy strategies context = Ok s
    /\ ((s ∈ strategies /\ attempt_count context <= max_attempts s)
        \/ (s = exhausted_strategy context
            /\ Forall (fun c => max_attempts c < attempt_count context)
                 strategies)).
Proof.
  unfold _select_best_strategy.
  destruct (filter _ strategies) as [|v viable] eqn:Hv.
  - eexists. split; [reflexivity|]. right. split; [reflexivity|].
    apply filter_nil_inv in Hv.
    eapply Forall_impl; [exact Hv|]. intros c Hc. simpl in Hc. lia.
  - destruct (sort_desc_head
                (fun s => score s (attempt_count context)) (v :: viable))
      as (best & tail & pre & post & Hs & Hl & _ & _); [discriminate|].
    unfold keyed in Hs. rewrite Hs. cbn [index0 bind snd].
    exists best. split; [reflexivity|]. left.
    assert (Hin : best ∈ v :: viable)
      by (rewrite Hl; apply elem_of_app; right; left).
    rewrite <- Hv in Hin. apply list_elem_of_filter in Hin as [H1 H2].
    now split.
Qed.

Lemma catalog_declared (k : ErrorType) :
  dict_get recovery_strategies k = Some (catalog k).
Proof. destruct k; reflexivity. Qed.

(** The facade is classification, then recording, then selection among the
    catalog entry of the kind; the [KeyError] of the catalog lookups cannot
    occur. *)
Lemma handle_tool_failure_unfold (env : Environment) (self : Handler)
    (tool : string) (error : PyException) (context : CallContext) :
  handle_tool_failure env self tool error context
  = (_select_best_strategy
       (catalog (error_type (incident_of env tool error context)))
       (incident_of env tool error context),
     _add_to_history self (incident_of env tool error context)).
Proof.
  unfold handle_tool_failure, incident_of. cbn [error_type].
  set (k := classify_error _ _). clearbody k.
  unfold dict_index. rewrite (catalog_declared UNKNOWN), (catalog_declared k).
  reflexivity.
Qed.

Lemma catalog_forallb (P : RecoveryStrategy -> bool) :
  (forall k, forallb P (catalog k) = true) ->
  forall k s, s ∈ catalog k -> P s = true.
Proof.
  intros H k s Hin. specialize (H k). rewrite forallb_forall in H.
  apply H. now apply list_elem_of_In.
Qed.

Lemma catalog_well_formed (k : ErrorType) (s : RecoveryStrategy) :
  s ∈ catalog k -> well_formed s = true.
Proof.
  apply catalog_forallb. intros k'. destruct k'; vm_compute; reflexivity.
Qed.

Lemma catalog_budget (k : ErrorType) (s : RecoveryStrategy) :
  s ∈ catalog k -> 1 <= max_attempts s <= 5.
Proof.
  intros Hin.
  assert (H : (1 <=? max_attempts s) && (max_attempts s <=? 5) = true).
  { revert k s Hin. apply catalog_forallb.
    intros k. destruct k; vm_compute; reflexivity. }
  apply andb_true_iff in H as [H1 H2]. split; [now apply Z.leb_le|].
  now apply Z.leb_le.
Qed.

(** Selection reads only the tool name and the attempt count of its
    context. *)
Lemma select_reads_tool_and_attempts (strategies : list RecoveryStrategy)
    (c : ErrorContext) :
  _select_best_strategy strategies c
  = _select_best_strategy strategies
      (context_of (tool_name c) (attempt_count c)).
Proof. reflexivity. Qed.

Lemma decision_table_at (k : ErrorType) (tool : string) (n : Z) :
  1 <= n <= 5 ->
  action_of (_select_best_strategy (catalog k) (context_of tool n))
  = Ok (decision k n).
Proof.
  intros Hn.
  assert (H : n = 1 \/ n = 2 \/ n = 3 \/ n = 4 \/ n = 5) by lia.
  destruct H as [-> | [-> | [-> | [-> | ->]]]];
    destruct k; vm_compute; reflexivity.
Qed.

Lemma decision_exhausted (k : ErrorType) (n : Z) :
  5 < n -> decision k n = ESCALATE_TO_HUMAN.
Proof.
  intros Hn. unfold decision.
  destruct k;
    repeat match goal with
           | |- context [?a <=? ?b] => destruct (Z.leb_spec a b); [lia|]
           end;
    reflexivity.
Qed.

Lemma facade_action (env : Environment) (self : Handler)
    (tool : string) (error : PyException) (context : CallContext) :
  1 <= default 1 (context_attempt_count context) ->
  action_of (fst (handle_tool_failure env self tool error context))
  = Ok (decision (classify_error (exception_str error) (Some error))
                 (default 1 (context_attempt_count context))).
Proof.
  intros Hn. rewrite handle_tool_failure_unfold. cbn [fst].
  set (inc := incident_of env tool error context).
  change (classify_error (exception_str error) (Some error))
    with (error_type inc).
  change (default 1 (context_attempt_count context))
    with (attempt_count inc) in *.
  destruct (Z.le_gt_cases (attempt_count inc) 5) as [H5 | H5].
  - rewrite select_reads_tool_and_attempts.
    apply decision_table_at. lia.
  - rewrite decision_exhausted by lia.
    rewrite select_all_exhausted; [reflexivity|].
    apply Forall_forall. intros c Hin. apply catalog_budget in Hin. lia.
Qed.

(** The decision table of the facade.  From the first attempt on, the
    action returned depends only on the classified kind and the attempt
    count, and is the one [decision] lists: for instance a timeout is
    retried with reduced scope twice, then with backoff, then escalated;
    a permission or authentication failure is escalated at once; an
    unknown failure is escalated first and retried with backoff on the
    second attempt. *)
Theorem handle_tool_failure_decision (env : Environment) (self : Handler)
    (tool : string) (error : PyException) (context : CallContext) :
  1 <= default 1 (context_attempt_count context) ->
  action_of (fst (handle_tool_failure env self tool error context))
  = Ok (decision (classify_error (exception_str error) (Some error))
                 (default 1 (context_attempt_count context))).
Proof. exact (facade_action env self tool error context). Qed.

Lemma handle_tool_failure_decision_witness :
  action_of
    (fst (handle_tool_failure (mkEnvironment 0 "" ∅) init_handler "nmap"
            (plain_exception "something odd happened")
            (mkCallContext None None (Some 2))))
  = Ok RETRY_WITH_BACKOFF.
Proof.
  rewrite (handle_tool_failure_decision (mkEnvironment 0 "" ∅) init_handler
             "nmap" (plain_exception "something odd happened")
             (mkCallContext None None (Some 2))).
  - vm_compute. reflexivity.
  - cbn. lia.
Defined.

(* --------------------------------------------------------------------- *)
(** ** The ledger, one append at a time                                   *)
(* --------------------------------------------------------------------- *)

(** An append never reorders or invents incidents, whatever the capacity:
    the new ledger is a suffix of the old one followed by the new incident,
    and the capacity is not touched.  For a capacity that is not negative
    the new incident is the last entry; for a positive one the ledger then
    holds one incident more, up to the capacity. *)
Theorem add_to_history_suffix (self : Handler) (x : ErrorContext) :
  max_history_size (_add_to_history self x) = max_history_size self
  /\ error_history (_add_to_history self x)
     `suffix_of` (error_history self ++ [x])%list
  /\ (0 <= max_history_size self ->
      last (error_history (_add_to_history self x)) = Some x)
  /\ (0 < max_history_size self ->
      Z.of_nat (length (error_history (_add_to_history self x)))
      = Z.min (Z.of_nat (length (error_history self)) + 1)
              (max_history_size self)).
Proof.
  unfold _add_to_history.
  destruct (max_history_size self <? _) eqn:E;
    cbn [error_history max_history_size].
  - apply Z.ltb_lt in E. rewrite length_app in E. cbn [length] in E.
    split; [reflexivity|]. split; [apply suffix_drop|]. split.
    + intros Hcap. unfold slice_from. rewrite length_app. cbn [length].
      destruct (- max_history_size self <? 0) eqn:E0.
      * apply Z.ltb_lt in E0.
        rewrite drop_app_le by lia. apply last_snoc.
      * apply Z.ltb_ge in E0.
        replace (Z.to_nat _) with 0%nat by lia. apply last_snoc.
    + intros Hcap. rewrite slice_from_last by exact Hcap.
      rewrite length_drop, length_app. cbn [length]. lia.
  - apply Z.ltb_ge in E. rewrite length_app in *. cbn [length] in *.
    split; [reflexivity|]. split; [reflexivity|]. split.
    + intros _. apply last_snoc.
    + intros _. lia.
Qed.

(** First in, first out, for any number of appends: with a positive
    capacity and a ledger within it, the ledger after the appends is
    exactly the last [max_history_size] entries of the old ledger followed
    by the appended incidents, in that order, and all of them when they are
    fewer. *)
Theorem ledger_keeps_latest (self : Handler) (incidents : list ErrorContext) :
  0 < max_history_size self ->
  Z.of_nat (length (error_history self)) <= max_history_size self ->
  error_history (add_all self incidents)
  = drop (length (error_history self ++ incidents)%list
          - Z.to_nat (max_history_size self))
         (error_history self ++ incidents)%list
  /\ Z.of_nat (length (error_history (add_all self incidents)))
     = Z.min (Z.of_nat (length (error_history self) + length incidents))
             (max_history_size self)
  /\ (Z.of_nat (length (error_history self) + length incidents)
      <= max_history_size self ->
      error_history (add_all self incidents)
      = (error_history self ++ incidents)%list).
Proof.
  intros Hcap Hlen.
  destruct (add_all_last incidents self Hcap Hlen) as [Hh _].
  split; [exact Hh|]. split.
  - rewrite Hh, length_drop, length_app. lia.
  - intros Hfew. rewrite Hh, length_app.
    replace (_ - _)%nat with 0%nat by lia. reflexivity.
Qed.

Lemma ledger_keeps_latest_witness :
  error_history
    (add_all (mkHandler [context_of "nmap" 1] 2)
       [context_of "nmap" 2; context_of "nmap" 3; context_of "nmap" 4])
  = [context_of "nmap" 3; context_of "nmap" 4].
Proof.
  destruct (ledger_keeps_latest (mkHandler [context_of "nmap" 1] 2)
              [context_of "nmap" 2; context_of "nmap" 3; context_of "nmap" 4])
    as [H _].
  - reflexivity.
  - cbn. lia.
  - exact H.
Defined.

(* --------------------------------------------------------------------- *)
(** ** Statistics, further                                                *)
(* --------------------------------------------------------------------- *)

Lemma get_error_statistics_nonempty (clock : nat -> Z) (self : Handler) :
  error_history self <> [] ->
  get_error_statistics clock self
  = {[ "total_errors" := SInt (Z.of_nat (length (error_history self)));
       "error_counts_by_type"
         := SCounts (counts_by kind_of (error_history self));
       "error_counts_by_tool"
         := SCounts (counts_by tool_name (error_history self));
       "recent_errors_count"
         := SInt (Z.of_nat
                    (length (recent_entries clock 0 (error_history self))));
       "recent_errors"
         := SRecent (slice_from (-10)
                       (recent_entries clock 0 (error_history self))) ]}.
Proof.
  intros Hne. unfold get_error_statistics.
  destruct (error_history self) as [|e history] eqn:Hh; [congruence|].
  destruct (stats_loop_spec clock (e :: history) 0 (mkStatsAcc ∅ ∅ []))
    as (H1 & H2 & H3).
  cbn [error_counts tool_errors recent_errors app] in H1, H2, H3.
  rewrite H1, H2, H3. reflexivity.
Qed.

Lemma sum_counts_insert (m : gmap string Z) (k : string) (v : Z) :
  m !! k = None -> sum_counts (<[k := v]> m) = v + sum_counts m.
Proof.
  intros H. unfold sum_counts.
  rewrite map_fold_insert_L; [reflexivity | intros; lia | exact H].
Qed.

Lemma sum_counts_bump (m : gmap string Z) (k : string) :
  sum_counts (bump k m) = sum_counts m + 1.
Proof.
  unfold bump. destruct (m !! k) as [v|] eqn:E; cbn [default from_option id].
  - rewrite <- (insert_delete_eq m).
    rewrite sum_counts_insert by apply lookup_delete_eq.
    rewrite <- (insert_delete_id m k v E) at 2.
    rewrite sum_counts_insert by apply lookup_delete_eq. lia.
  - rewrite sum_counts_insert by exact E. lia.
Qed.

Lemma sum_counts_foldl (f : ErrorContext -> string)
    (history : list ErrorContext) (m : gmap string Z) :
  sum_counts (foldl (fun m e => bump (f e) m) m history)
  = sum_counts m + Z.of_nat (length history).
Proof.
  revert m. induction history as [|e history IH]; intros m; cbn [foldl length].
  - lia.
  - rewrite IH, sum_counts_bump. lia.
Qed.

Lemma sum_counts_by (f : ErrorContext -> string)
    (history : list ErrorContext) :
  sum_counts (counts_by f history) = Z.of_nat (length history).
Proof.
  unfold counts_by. rewrite sum_counts_foldl.
  unfold sum_counts. now rewrite map_fold_empty.
Qed.

Lemma counts_by_lookup (f : ErrorContext -> string)
    (history : list ErrorContext) (key : string) :
  counts_by f history !! key = count_entry (occurrences f key history).
Proof.
  unfold counts_by. rewrite foldl_bump_lookup, lookup_empty.
  destruct (occurrences f key history);
    cbn [count_entry default from_option id]; f_equal; lia.
Qed.

(** The counters add up: on a history that is not empty, the counts by
    kind sum to the total, and so do the counts by tool; no counter is
    zero or negative. *)
Theorem statistics_counts_add_up (clock : nat -> Z) (self : Handler) :
  error_history self <> [] ->
  exists (total : Z) (by_type by_tool : gmap string Z),
    get_error_statistics clock self !! "total_errors" = Some (SInt total)
    /\ get_error_statistics clock self !! "error_counts_by_type"
       = Some (SCounts by_type)
    /\ get_error_statistics clock self !! "error_counts_by_tool"
       = Some (SCounts by_tool)
    /\ total = Z.of_nat (length (error_history self))
    /\ sum_counts by_type = total
    /\ sum_counts by_tool = total
    /\ (forall key n, by_type !! key = Some n -> 1 <= n)
    /\ (forall tool n, by_tool !! tool = Some n -> 1 <= n).
Proof.
  intros Hne. rewrite (get_error_statistics_nonempty clock self Hne).
  eexists _, _, _.
  split; [reflexivity|]. split; [reflexivity|]. split; [reflexivity|].
  split; [reflexivity|].
  split; [apply sum_counts_by|]. split; [apply sum_counts_by|].
  split; intros key n; rewrite counts_by_lookup;
    destruct (occurrences _ key (error_history self));
    cbn [count_entry]; intros [= <-]; lia.
Qed.

Lemma statistics_counts_add_up_witness :
  exists (by_type by_tool : gmap string Z),
    get_error_statistics (fun _ => 0)
      (mkHandler [context_of "nmap" 1; context_of "ffuf" 1] 1000)
      !! "error_counts_by_type" = Some (SCounts by_type)
    /\ get_error_statistics (fun _ => 0)
      (mkHandler [context_of "nmap" 1; context_of "ffuf" 1] 1000)
      !! "error_counts_by_tool" = Some (SCounts by_tool)
    /\ sum_counts by_type = 2
    /\ sum_counts by_tool = 2.
Proof.
  destruct (statistics_counts_add_up (fun _ => 0)
              (mkHandler [context_of "nmap" 1; context_of "ffuf" 1] 1000))
    as (total & by_type & by_tool & _ & H2 & H3 & -> & H5 & H6 & _);
    [discriminate|].
  exists by_type, by_tool. repeat split; assumption.
Defined.

Lemma recent_entries_constant_clock (now : Z) (history : list ErrorContext)
    (i : nat) :
  recent_entries (fun _ => now) i history
  = map recent_entry
      (filter (fun e => now - timestamp e < one_hour) history).
Proof.
  revert i. induction history as [|e history IH]; intros i;
    cbn [recent_entries]; [reflexivity|].
  destruct (Z.ltb_spec (now - timestamp e) one_hour) as [H|H].
  - rewrite filter_cons_True by exact H. cbn [map]. now rewrite IH.
  - rewrite filter_cons_False by lia. apply IH.
Qed.

(** The one-hour window.  When the clock reads [now] throughout the loop,
    the recent count is the number of incidents whose timestamp is less
    than 3600 seconds before [now] (an incident stamped in the future
    counts too), and the recent list holds the last ten of them, oldest
    first, each with its tool, its kind and its timestamp. *)
Theorem statistics_recent_window (now : Z) (self : Handler) :
  error_history self <> [] ->
  get_error_statistics (fun _ => now) self !! "recent_errors_count"
  = Some (SInt (Z.of_nat (length
       (filter (fun e => now - timestamp e < 3600 * 1000000)
               (error_history self)))))
  /\ get_error_statistics (fun _ => now) self !! "recent_errors"
     = Some (SRecent (map recent_entry
          (slice_from (-10)
             (filter (fun e => now - timestamp e < 3600 * 1000000)
                     (error_history self))))).
Proof.
  intros Hne. rewrite (get_error_statistics_nonempty _ self Hne).
  rewrite recent_entries_constant_clock. fold one_hour.
  set (recent := filter _ (error_history self)).
  split.
  - rewrite length_map. reflexivity.
  - rewrite !(slice_from_last 10) by lia.
    rewrite length_map, skipn_map. reflexivity.
Qed.

Lemma statistics_recent_window_witness :
  get_error_statistics (fun _ => 3600 * 1000000)
    (mkHandler [context_of "nmap" 1; context_of "ffuf" 1] 1000)
    !! "recent_errors_count"
  = Some (SInt 0).
Proof.
  destruct (statistics_recent_window (3600 * 1000000)
              (mkHandler [context_of "nmap" 1; context_of "ffuf" 1] 1000))
    as [H _]; [discriminate|].
  rewrite H. reflexivity.
Defined.

Lemma _add_to_history_snoc (self : Handler) (x : ErrorContext) :
  0 <= max_history_size self ->
  exists older, error_history (_add_to_history self x) = (older ++ [x])%list.
Proof.
  intros Hcap. unfold _add_to_history.
  destruct (max_history_size self <? _) eqn:E; cbn [error_history].
  - unfold slice_from. rewrite length_app. cbn [length].
    destruct (- max_history_size self <? 0) eqn:E0.
    + apply Z.ltb_lt in E0. rewrite drop_app_le by lia. eauto.
    + apply Z.ltb_ge in E0. replace (Z.to_nat _) with 0%nat by lia.
      cbn [drop]. eauto.
  - eauto.
Qed.

Lemma occurrences_snoc (f : ErrorContext -> string)
    (older : list ErrorContext) (x : ErrorContext) :
  occurrences f (f x) (older ++ [x])
  = S (occurrences f (f x) older).
Proof.
  unfold occurrences. rewrite filter_app, length_app.
  rewrite filter_cons_True by reflexivity. cbn. lia.
Qed.

(** A failure that was handled shows in the statistics.  For a capacity
    that is not negative, the statistics read right after
    [handle_tool_failure] hold all five components, with at least one
    incident in total, at least one for the tool that failed and at least
    one for the kind the failure was classified as. *)
Theorem statistics_after_failure (clock : nat -> Z) (env : Environment)
    (self : Handler) (tool : string) (error : PyException)
    (context : CallContext) :
  0 <= max_history_size self ->
  exists (total : Z) (by_type by_tool : gmap string Z) (n_type n_tool : Z),
    dom (get_error_statistics clock
           (snd (handle_tool_failure env self tool error context)))
    = {[ "total_errors"; "error_counts_by_type"; "error_counts_by_tool";
         "recent_errors_count"; "recent_errors" ]}
    /\ get_error_statistics clock
         (snd (handle_tool_failure env self tool error context))
       !! "total_errors" = Some (SInt total)
    /\ get_error_statistics clock
         (snd (handle_tool_failure env self tool error context))
       !! "error_counts_by_type" = Some (SCounts by_type)
    /\ get_error_statistics clock
         (snd (handle_tool_failure env self tool error context))
       !! "error_counts_by_tool" = Some (SCounts by_tool)
    /\ 1 <= total
    /\ by_tool !! tool = Some n_tool /\ 1 <= n_tool
    /\ by_type
       !! ErrorType_value (classify_error (exception_str error) (Some error))
       = Some n_type
    /\ 1 <= n_type.
Proof.
  intros Hcap. rewrite handle_tool_failure_unfold. cbn [snd].
  set (inc := incident_of env tool error context).
  destruct (_add_to_history_snoc self inc Hcap) as [older Hh].
  assert (Hne : error_history (_add_to_history self inc) <> [])
    by (rewrite Hh; destruct older; discriminate).
  rewrite (get_error_statistics_nonempty clock _ Hne). rewrite Hh.
  eexists _, _, _, _, _.
  split; [|split; [reflexivity|split; [reflexivity|split; [reflexivity|]]]].
  - rewrite !dom_insert_L, dom_singleton_L. set_solver.
  - split; [rewrite length_app; cbn; lia|].
    split; [|split; [|split]].
    + rewrite counts_by_lookup.
      change tool with (tool_name inc) at 1.
      rewrite occurrences_snoc. reflexivity.
    + lia.
    + rewrite counts_by_lookup.
      change (ErrorType_value (classify_error (exception_str error) (Some error)))
        with (kind_of inc).
      rewrite occurrences_snoc. reflexivity.
    + lia.
Qed.

Lemma statistics_after_failure_witness :
  exists (by_tool : gmap string Z) (n_tool : Z),
    get_error_statistics (fun _ => 0)
      (snd (handle_tool_failure (mkEnvironment 0 "" ∅) init_handler "nmap"
              (plain_exception "connection refused")
              (mkCallContext None None None)))
    !! "error_counts_by_tool" = Some (SCounts by_tool)
    /\ by_tool !! "nmap" = Some n_tool /\ 1 <= n_tool.
Proof.
  destruct (statistics_after_failure (fun _ => 0) (mkEnvironment 0 "" ∅)
              init_handler "nmap" (plain_exception "connection refused")
              (mkCallContext None None None))
    as (total & by_type & by_tool & n_type & n_tool
        & _ & _ & _ & H3 & _ & H5 & H6 & _); [cbn; lia|].
  exists by_tool, n_tool. repeat split; assumption.
Defined.

(* --------------------------------------------------------------------- *)
(** ** Parameter adjustment, further                                      *)
(* --------------------------------------------------------------------- *)

Lemma declared_rows_forallb
    (P : ErrorType -> gmap string pyval -> bool) :
  forallb (fun entry : string * list (ErrorType * gmap string pyval) =>
             forallb (fun row => P (fst row) (snd row)) (snd entry))
          parameter_adjustments = true ->
  forall tool per_kind kind delta,
    dict_get parameter_adjustments tool = Some per_kind ->
    dict_get per_kind kind = Some delta ->
    P kind delta = true.
Proof.
  intros H tool per_kind kind delta Ht Hk.
  apply dict_get_elem_of in Ht. apply dict_get_elem_of in Hk.
  rewrite forallb_forall in H.
  specialize (H _ (proj1 (list_elem_of_In _ _) Ht)). cbn [snd] in H.
  rewrite forallb_forall in H.
  exact (H _ (proj1 (list_elem_of_In _ _) Hk)).
Qed.

Lemma keys_within_dom (keys : gset string) (d : gmap string pyval) :
  keys_within keys d = true -> dom d ⊆ keys.
Proof.
  intros H k Hk. apply elem_of_dom in Hk as [v Hv].
  apply elem_of_map_to_list in Hv.
  unfold keys_within in H. rewrite forallb_forall in H.
  specialize (H (k, v) (proj1 (list_elem_of_In _ _) Hv)).
  now apply bool_decide_eq_true_1 in H.
Qed.

Lemma applicable_delta_keys (tool : string) (kind : ErrorType) :
  dom (applicable_delta tool kind) ⊆ tuning_keys.
Proof.
  assert (Hg : forall k, dom (generic_adjustments k ∅) ⊆ tuning_keys).
  { intros k. apply keys_within_dom.
    destruct k; vm_compute; reflexivity. }
  unfold applicable_delta.
  destruct (dict_get parameter_adjustments tool) as [per_kind|] eqn:Ht;
    [|apply Hg].
  destruct (dict_get per_kind kind) as [delta|] eqn:Hk; [|apply Hg].
  apply keys_within_dom.
  apply (declared_rows_forallb (fun _ d => keys_within tuning_keys d)
           ltac:(vm_compute; reflexivity) tool per_kind kind delta Ht Hk).
Qed.

Lemma applicable_delta_other_kinds (tool : string) (kind : ErrorType) :
  adjustable kind = false -> applicable_delta tool kind = ∅.
Proof.
  intros Hkind. unfold applicable_delta.
  destruct (dict_get parameter_adjustments tool) as [per_kind|] eqn:Ht;
    [|destruct kind; try discriminate Hkind; reflexivity].
  destruct (dict_get per_kind kind) as [delta|] eqn:Hk;
    [|destruct kind; try discriminate Hkind; reflexivity].
  pose proof (declared_rows_forallb (fun k _ => adjustable k)
                ltac:(vm_compute; reflexivity) tool per_kind kind delta Ht Hk)
    as H.
  cbn beta in H. congruence.
Qed.

(** Adjusting twice is adjusting once: a second adjustment for the same
    tool and kind changes nothing. *)
Theorem auto_adjust_parameters_idempotent (tool : string) (kind : ErrorType)
    (original : gmap string pyval) :
  auto_adjust_parameters tool kind
    (auto_adjust_parameters tool kind original)
  = auto_adjust_parameters tool kind original.
Proof.
  rewrite !auto_adjust_parameters_update. unfold dict_update.
  apply map_eq. intros key. rewrite !lookup_union.
  destruct (applicable_delta tool kind !! key), (original !! key);
    reflexivity.
Qed.

Lemma auto_adjust_parameters_not_adjustable (tool : string)
    (kind : ErrorType) (original : gmap string pyval) :
  adjustable kind = false ->
  auto_adjust_parameters tool kind original = original.
Proof.
  intros H. rewrite auto_adjust_parameters_update.
  rewrite (applicable_delta_other_kinds tool kind H).
  unfold dict_update. apply map_eq. intros key.
  rewrite lookup_union, lookup_empty.
  destruct (original !! key); reflexivity.
Qed.

(** Only timeouts, rate limiting and resource exhaustion adjust anything:
    for every other kind, and whatever the tool, the parameters come back
    as they were given. *)
Theorem auto_adjust_parameters_other_kinds (tool : string) (kind : ErrorType)
    (original : gmap string pyval) :
  kind <> TIMEOUT -> kind <> RATE_LIMITED -> kind <> RESOURCE_EXHAUSTED ->
  auto_adjust_parameters tool kind original = original.
Proof.
  intros H1 H2 H3. apply auto_adjust_parameters_not_adjustable.
  destruct kind; try reflexivity; congruence.
Qed.

Lemma auto_adjust_parameters_other_kinds_witness :
  auto_adjust_parameters "nmap" PERMISSION_DENIED {[ "threads" := VStr "50" ]}
  = {[ "threads" := VStr "50" ]}.
Proof.
  apply (auto_adjust_parameters_other_kinds "nmap" PERMISSION_DENIED);
    discriminate.
Defined.

(** An adjustment writes only tuning parameters: a key outside
    [tuning_keys] ("target", "url", "wordlist", ...) has in the result
    exactly what the original holds for it, for every tool and kind; and
    the keys of the result are those of the original and of the delta. *)
Theorem auto_adjust_parameters_tuning_only (tool : string) (kind : ErrorType)
    (original : gmap string pyval) :
  (forall key, key ∉ tuning_keys ->
     auto_adjust_parameters tool kind original !! key = original !! key)
  /\ dom (auto_adjust_parameters tool kind original)
     = dom (applicable_delta tool kind) ∪ dom original
  /\ dom (auto_adjust_parameters tool kind original)
     ⊆ tuning_keys ∪ dom original.
Proof.
  rewrite auto_adjust_parameters_update. unfold dict_update.
  pose proof (applicable_delta_keys tool kind) as Hkeys.
  split; [|split].
  - intros key Hkey. rewrite lookup_union.
    assert (Hnone : applicable_delta tool kind !! key = None)
      by (apply not_elem_of_dom; set_solver).
    rewrite Hnone. destruct (original !! key); reflexivity.
  - apply dom_union_L.
  - rewrite dom_union_L. apply union_mono_r, Hkeys.
Qed.

(* --------------------------------------------------------------------- *)
(** ** Tool substitution, further                                         *)
(* --------------------------------------------------------------------- *)

Lemma get_alternative_tool_pick (failed_tool : string)
    (context : gmap string pyval) :
  get_alternative_tool failed_tool context
  = pick_alternative context (declared_alternatives failed_tool).
Proof.
  unfold get_alternative_tool, pick_alternative.
  fold (declared_alternatives failed_tool).
  destruct (declared_alternatives failed_tool) as [|a l] eqn:Hd.
  - reflexivity.
  - rewrite filter_alternatives_surviving. cbn [app].
    destruct (surviving context (a :: l)); reflexivity.
Qed.

Lemma skipped_flags (c1 c2 : gmap string pyval) (alt : string) :
  truthy (c1 !! "require_no_privileges")
  = truthy (c2 !! "require_no_privileges") ->
  truthy (c1 !! "prefer_faster_tools")
  = truthy (c2 !! "prefer_faster_tools") ->
  skipped c1 alt = skipped c2 alt.
Proof. intros H1 H2. unfold skipped. now rewrite H1, H2. Qed.

Lemma surviving_flags (c1 c2 : gmap string pyval) (l : list string) :
  truthy (c1 !! "require_no_privileges")
  = truthy (c2 !! "require_no_privileges") ->
  truthy (c1 !! "prefer_faster_tools")
  = truthy (c2 !! "prefer_faster_tools") ->
  surviving c1 l = surviving c2 l.
Proof.
  intros H1 H2. unfold surviving. apply list_filter_iff.
  intros alt. now rewrite (skipped_flags c1 c2 alt H1 H2).
Qed.

Lemma pick_alternative_flags (c : gmap string pyval) (l : list string) :
  pick_alternative c l
  = pick_alternative
      (flags_context (truthy (c !! "require_no_privileges"))
                     (truthy (c !! "prefer_faster_tools"))) l.
Proof.
  unfold pick_alternative.
  rewrite (surviving_flags c
             (flags_context (truthy (c !! "require_no_privileges"))
                            (truthy (c !! "prefer_faster_tools"))) l);
    [reflexivity | |];
    destruct (truthy (c !! "require_no_privileges")),
             (truthy (c !! "prefer_faster_tools")); reflexivity.
Qed.

(** A check on every entry of the table, for every setting of the two
    flags, is a property of every lookup. *)
Lemma tool_alternatives_forallb
    (P : bool -> bool -> string -> option string -> bool) :
  (forall b1 b2,
     forallb (fun entry : string * list string =>
                P b1 b2 (fst entry)
                  (pick_alternative (flags_context b1 b2) (snd entry)))
             tool_alternatives = true) ->
  (forall b1 b2 tool, P b1 b2 tool None = true) ->
  forall tool context,
    P (truthy (context !! "require_no_privileges"))
      (truthy (context !! "prefer_faster_tools"))
      tool (get_alternative_tool tool context) = true.
Proof.
  intros Htable Hnone tool context.
  rewrite get_alternative_tool_pick, pick_alternative_flags.
  unfold declared_alternatives.
  destruct (dict_get tool_alternatives tool) as [l|] eqn:E;
    cbn [default from_option id].
  - apply dict_get_elem_of in E.
    specialize (Htable (truthy (context !! "require_no_privileges"))
                       (truthy (context !! "prefer_faster_tools"))).
    rewrite forallb_forall in Htable.
    exact (Htable _ (proj1 (list_elem_of_In _ _) E)).
  - apply Hnone.
Qed.

(** The lookup answers with a declared alternative of the failed tool,
    and never with the failed tool itself. *)
Theorem get_alternative_tool_declared (failed_tool : string)
    (context : gmap string pyval) (alt : string) :
  get_alternative_tool failed_tool context = Some alt ->
  alt ∈ declared_alternatives failed_tool /\ alt <> failed_tool.
Proof.
  intros H. split.
  - rewrite get_alternative_tool_pick in H. unfold pick_alternative in H.
    destruct (surviving context (declared_alternatives failed_tool))
      as [|s l] eqn:Hs.
    + destruct (declared_alternatives failed_tool); [discriminate|].
      injection H as ->. left.
    + injection H as ->.
      assert (Hin : alt ∈ surviving context (declared_alternatives failed_tool))
        by (rewrite Hs; left).
      unfold surviving in Hin. now apply list_elem_of_filter in Hin.
  - pose proof (tool_alternatives_forallb
                  (fun _ _ tool r =>
                     match r with
                     | Some a => negb (String.eqb a tool)
                     | None => true
                     end)) as Hp.
    specialize (Hp ltac:(intros [] []; vm_compute; reflexivity)
                   ltac:(reflexivity) failed_tool context).
    rewrite H in Hp. apply negb_true_iff, String.eqb_neq in Hp. exact Hp.
Qed.

Lemma get_alternative_tool_declared_witness :
  "feroxbuster" ∈ declared_alternatives "gobuster"
  /\ "feroxbuster" <> "gobuster".
Proof.
  apply (get_alternative_tool_declared "gobuster" ∅ "feroxbuster").
  reflexivity.
Defined.

(** The lookup reads nothing of its context but the truth values of
    [require_no_privileges] and [prefer_faster_tools]: two contexts that
    agree on them get the same answer, and a context in which neither is
    truthy (missing, [False], [0] or the empty string) gets the first
    declared alternative. *)
Theorem get_alternative_tool_flags_only (failed_tool : string)
    (c1 c2 : gmap string pyval) :
  truthy (c1 !! "require_no_privileges")
  = truthy (c2 !! "require_no_privileges") ->
  truthy (c1 !! "prefer_faster_tools")
  = truthy (c2 !! "prefer_faster_tools") ->
  get_alternative_tool failed_tool c1 = get_alternative_tool failed_tool c2
  /\ (truthy (c1 !! "require_no_privileges") = false ->
      truthy (c1 !! "prefer_faster_tools") = false ->
      get_alternative_tool failed_tool c1
      = head (declared_alternatives failed_tool)).
Proof.
  intros H1 H2. rewrite !get_alternative_tool_pick. unfold pick_alternative.
  split.
  - now rewrite (surviving_flags c1 c2 _ H1 H2).
  - intros F1 F2.
    assert (Hall : surviving c1 (declared_alternatives failed_tool)
                   = declared_alternatives failed_tool).
    { unfold surviving.
      induction (declared_alternatives failed_tool) as [|a l IH];
        [reflexivity|].
      rewrite filter_cons_True, IH; [reflexivity|].
      unfold skipped. now rewrite F1, F2. }
    rewrite Hall. destruct (declared_alternatives failed_tool); reflexivity.
Qed.

Lemma get_alternative_tool_flags_only_witness :
  get_alternative_tool "nmap" {[ "require_no_privileges" := VInt 0 ]}
  = get_alternative_tool "nmap" ∅.
Proof.
  apply (get_alternative_tool_flags_only "nmap"
           {[ "require_no_privileges" := VInt 0 ]} ∅); reflexivity.
Defined.

(** How far the constraints are honoured.  Under a truthy
    [prefer_faster_tools] the answer is never amass nor w3af.  Under a
    truthy [require_no_privileges] the answer is nmap or masscan for one
    tool only, rustscan, whose declared alternatives are just those two. *)
Theorem get_alternative_tool_constraints (failed_tool : string)
    (context : gmap string pyval) (alt : string) :
  get_alternative_tool failed_tool context = Some alt ->
  (truthy (context !! "prefer_faster_tools") = true ->
   alt <> "amass" /\ alt <> "w3af")
  /\ (truthy (context !! "require_no_privileges") = true ->
      alt = "nmap" \/ alt = "masscan" -> failed_tool = "rustscan").
Proof.
  intros H.
  pose proof (tool_alternatives_forallb
                (fun b1 b2 tool r =>
                   match r with
                   | Some a =>
                       implb b2 (negb (str_in a ["amass"; "w3af"]))
                       && implb (b1 && str_in a ["nmap"; "masscan"])
                                (String.eqb tool "rustscan")
                   | None => true
                   end)) as Hp.
  specialize (Hp ltac:(intros [] []; vm_compute; reflexivity)
                 ltac:(reflexivity) failed_tool context).
  rewrite H in Hp. apply andb_true_iff in Hp as [Hf Hn].
  split.
  - intros Hfast. rewrite Hfast in Hf. cbn [implb] in Hf.
    apply negb_true_iff in Hf.
    split; intros ->; discriminate Hf.
  - intros Hpriv Halt. rewrite Hpriv in Hn.
    assert (Hin : str_in alt ["nmap"; "masscan"] = true)
      by (destruct Halt as [-> | ->]; reflexivity).
    rewrite Hin in Hn. cbn [andb implb] in Hn.
    now apply String.eqb_eq in Hn.
Qed.

Lemma get_alternative_tool_constraints_witness :
  (truthy (flags_context true true !! "prefer_faster_tools") = true ->
   "assetfinder" <> "amass" /\ "assetfinder" <> "w3af")
  /\ (truthy (flags_context true true !! "require_no_privileges") = true ->
      "assetfinder" = "nmap" \/ "assetfinder" = "masscan" ->
      "subfinder" = "rustscan").
Proof.
  apply (get_alternative_tool_constraints "subfinder"
           (flags_context true true) "assetfinder").
  reflexivity.
Defined.

(* --------------------------------------------------------------------- *)
(** ** Escalation                                                         *)
(* --------------------------------------------------------------------- *)

(** The escalation record is bounded and never empty-handed: it carries the
    messages of the last five previous errors, oldest first (all of them
    when they are five or fewer), and between one and three suggestions,
    three exactly for the four kinds that have suggestions of their own;
    the urgency is "medium" unless the caller gives one. *)
Theorem escalate_to_human_bounded (context : ErrorContext)
    (urgency : option string) :
  esc_recent_errors (esc_context (escalate_to_human context urgency))
  = map error_message
      (drop (length (previous_errors context) - 5)
            (previous_errors context))
  /\ length (esc_recent_errors
               (esc_context (escalate_to_human context urgency)))
     = Nat.min 5 (length (previous_errors context))
  /\ esc_suggested_actions (escalate_to_human context urgency) <> []
  /\ length (esc_suggested_actions (escalate_to_human context urgency))
     = (if bool_decide (error_type context
                        ∈ [PERMISSION_DENIED; TOOL_NOT_FOUND;
                           NETWORK_UNREACHABLE; RATE_LIMITED])
        then 3%nat else 1%nat)
  /\ esc_urgency (escalate_to_human context None) = "medium"
  /\ (forall u, esc_urgency (escalate_to_human context (Some u)) = u).
Proof.
  unfold escalate_to_human.
  cbn [esc_recent_errors esc_context esc_suggested_actions esc_urgency].
  rewrite (slice_from_last 5) by lia.
  split; [reflexivity|]. split.
  - rewrite length_map, length_drop. lia.
  - unfold _get_human_suggestions.
    split; [destruct (error_type context); discriminate|].
    split; [destruct (error_type context); reflexivity|].
    split; [reflexivity | intros u; reflexivity].
Qed.

(** The facade never fills the lineage of an incident: the incident it
    records has no previous errors, so escalating it reports no recent
    error, whatever failed before.  The record repeats the tool, the
    classified kind and the attempt count (1 when none was given). *)
Theorem escalate_recorded_incident (env : Environment) (self : Handler)
    (tool : string) (error : PyException) (context : CallContext)
    (urgency : option string) :
  0 <= max_history_size self ->
  exists incident,
    last (error_history
            (snd (handle_tool_failure env self tool error context)))
    = Some incident
    /\ previous_errors incident = []
    /\ esc_recent_errors (esc_context (escalate_to_human incident urgency))
       = []
    /\ esc_tool (escalate_to_human incident urgency) = tool
    /\ esc_error_type (escalate_to_human incident urgency)
       = ErrorType_value
           (classify_error (exception_str error) (Some error))
    /\ esc_error_message (escalate_to_human incident urgency)
       = exception_str error
    /\ esc_attempt_count (escalate_to_human incident urgency)
       = default 1 (context_attempt_count context).
Proof.
  intros Hcap. rewrite handle_tool_failure_unfold. cbn [snd].
  destruct (_add_to_history_snoc self
              (incident_of env tool error context) Hcap) as [older Hh].
  exists (incident_of env tool error context).
  split; [rewrite Hh; apply last_snoc|].
  repeat split.
Qed.

Lemma escalate_recorded_incident_witness :
  exists incident,
    last (error_history
            (snd (handle_tool_failure (mkEnvironment 0 "" ∅) init_handler
                    "nmap" (plain_exception "connection refused")
                    (mkCallContext None None None))))
    = Some incident
    /\ esc_recent_errors (esc_context (escalate_to_human incident None)) = []
    /\ esc_attempt_count (escalate_to_human incident None) = 1.
Proof.
  destruct (escalate_recorded_incident (mkEnvironment 0 "" ∅) init_handler
              "nmap" (plain_exception "connection refused")
              (mkCallContext None None None) None)
    as (incident & H1 & _ & H3 & _ & _ & _ & H7); [cbn; lia|].
  exists incident. repeat split; assumption.
Defined.

(* --------------------------------------------------------------------- *)
(** ** The classifier, further                                            *)
(* --------------------------------------------------------------------- *)

Lemma re_search_inv (pattern text : string) :
  re_search_ignorecase pattern text = true ->
  exists alt, In alt (alternatives pattern) /\ search_literal alt text = true.
Proof. intros H. now apply existsb_exists in H. Qed.

Section Shadowing.
Variable text : string.

Lemma check_error_patterns_unmatched (pre post : list (string * ErrorType))
    (p : string) (k : ErrorType) :
  re_search_ignorecase p text = false ->
  check_error_patterns (pre ++ (p, k) :: post) text
  = check_error_patterns (pre ++ post) text.
Proof.
  intros Hp. induction pre as [|[r kr] pre IH]; cbn [app check_error_patterns].
  - now rewrite Hp.
  - now rewrite IH.
Qed.

Lemma check_error_patterns_decided (pre rest1 rest2 : list (string * ErrorType))
    (q : string) (kq : ErrorType) :
  (q, kq) ∈ pre ->
  re_search_ignorecase q text = true ->
  check_error_patterns (pre ++ rest1) text
  = check_error_patterns (pre ++ rest2) text.
Proof.
  intros Hin Hq. induction pre as [|[r kr] pre IH]; [inversion Hin|].
  cbn [app check_error_patterns].
  destruct (re_search_ignorecase r text) eqn:Hr; [reflexivity|].
  apply IH. apply elem_of_cons in Hin as [[= -> ->] | Hin]; [congruence|].
  exact Hin.
Qed.

(** A row can be left out when an earlier row matches whenever it does. *)
Lemma check_error_patterns_shadowed (pre post : list (string * ErrorType))
    (p q : string) (k kq : ErrorType) :
  (q, kq) ∈ pre ->
  (re_search_ignorecase p text = true -> re_search_ignorecase q text = true) ->
  check_error_patterns (pre ++ (p, k) :: post) text
  = check_error_patterns (pre ++ post) text.
Proof.
  intros Hin Himp. destruct (re_search_ignorecase p text) eqn:Hp.
  - exact (check_error_patterns_decided _ _ _ q kq Hin (Himp eq_refl)).
  - now apply check_error_patterns_unmatched.
Qed.

Lemma second_row_shadowed :
  re_search_ignorecase "operation timed out|command timeout" text = true ->
  re_search_ignorecase
    "timeout|timed out|connection timeout|read timeout" text = true.
Proof.
  intros (alt & Hin & H)%re_search_inv. simpl in Hin.
  destruct Hin as [<- | [<- | []]].
  - apply (re_search_alternative _ "timed out"); [simpl; auto|].
    exact (search_literal_app "operation " "timed out" _ H).
  - apply (re_search_alternative _ "timeout"); [simpl; auto|].
    exact (search_literal_app "command " "timeout" _ H).
Qed.

Lemma tenth_row_shadowed :
  re_search_ignorecase "executable not found|binary not found" text = true ->
  re_search_ignorecase
    "command not found|no such file or directory|not found" text = true.
Proof.
  intros (alt & Hin & H)%re_search_inv. simpl in Hin.
  apply (re_search_alternative _ "not found"); [simpl; auto|].
  destruct Hin as [<- | [<- | []]].
  - exact (search_literal_app "executable " "not found" _ H).
  - exact (search_literal_app "binary " "not found" _ H).
Qed.

Lemma check_live_patterns :
  check_error_patterns error_patterns text
  = check_error_patterns live_patterns text.
Proof.
  assert (E1 : error_patterns
               = ((take 1 error_patterns)
                  ++ ("operation timed out|command timeout", TIMEOUT)
                  :: drop 2 error_patterns)%list) by reflexivity.
  assert (E2 : (take 1 error_patterns ++ drop 2 error_patterns)%list
               = ((take 1 error_patterns ++ take 7 (drop 2 error_patterns))
                  ++ ("executable not found|binary not found", TOOL_NOT_FOUND)
                  :: drop 10 error_patterns)%list) by reflexivity.
  assert (E3 : live_patterns
               = ((take 1 error_patterns ++ take 7 (drop 2 error_patterns))
                  ++ drop 10 error_patterns)%list)
    by (vm_compute; reflexivity).
  rewrite E3, E1.
  rewrite (check_error_patterns_shadowed _ _ _
             "timeout|timed out|connection timeout|read timeout" _ TIMEOUT);
    [|left | apply second_row_shadowed].
  rewrite E2.
  apply (check_error_patterns_shadowed _ _ _
           "command not found|no such file or directory|not found"
           _ TOOL_NOT_FOUND); [|apply tenth_row_shadowed].
  apply list_elem_of_In. vm_compute. tauto.
Qed.
End Shadowing.

(** Two rows of the pattern table are dead.  Whenever the second row
    ("operation timed out|command timeout") matches, the first does; and
    whenever the tenth ("executable not found|binary not found") matches,
    the ninth does.  Classification is therefore the same with the two rows
    left out, for every message and exception. *)
Theorem classify_error_dead_rows (msg : string) (exc : option PyException) :
  length error_patterns = 20%nat
  /\ length live_patterns = 18%nat
  /\ classify_error msg exc = classify_with live_patterns msg exc
  /\ classify_error msg exc = classify_with error_patterns msg exc.
Proof.
  split; [reflexivity|]. split; [vm_compute; reflexivity|].
  unfold classify_error, classify_with.
  destruct (check_exception_type exc); [split; reflexivity|].
  split; [apply check_live_patterns | reflexivity].
Qed.

Lemma lower_app (a b : string) : lower (a ++ b) = lower a ++ lower b.
Proof. induction a as [|c a IH]; simpl; [reflexivity | now rewrite IH]. Qed.

Lemma match_here_app_r (p s b : string) :
  match_here p s = true -> match_here p (s ++ b) = true.
Proof.
  revert s. induction p as [|c p IH]; intros s H; [reflexivity|].
  destruct s as [|d s]; simpl in *; [discriminate|].
  apply andb_true_iff in H as [H1 H2]. rewrite H1. now apply IH.
Qed.

Lemma search_literal_app_r (p s b : string) :
  search_literal p s = true -> search_literal p (s ++ b) = true.
Proof.
  induction s as [|d s IH]; intros H.
  - simpl in H. rewrite orb_false_r in H.
    apply match_here_search. exact (match_here_app_r p "" b H).
  - cbn [search_literal] in H. apply orb_true_iff in H as [H|H].
    + apply match_here_search. exact (match_here_app_r p _ b H).
    + change (String d s ++ b) with (String d (s ++ b)).
      apply search_literal_tail, IH, H.
Qed.

Lemma search_literal_app_l (p a s : string) :
  search_literal p s = true -> search_literal p (a ++ s) = true.
Proof.
  intros H. induction a as [|c a IH]; [exact H|].
  change (String c a ++ s) with (String c (a ++ s)).
  now apply search_literal_tail.
Qed.

(** A pattern that matches a text matches any text around it. *)
Lemma re_search_around (pattern before text after : string) :
  re_search_ignorecase pattern text = true ->
  re_search_ignorecase pattern (before ++ text ++ after) = true.
Proof.
  intros (alt & Hin & H)%re_search_inv.
  apply (re_search_alternative pattern alt _ Hin).
  apply search_literal_app_l, search_literal_app_r, H.
Qed.

Lemma error_patterns_ranked :
  StronglySorted (fun a b => (rank (snd a) <= rank (snd b))%nat)
                 error_patterns.
Proof.
  apply Sorted_StronglySorted.
  - intros a b c Hab Hbc. lia.
  - unfold error_patterns.
    repeat first
      [ apply Sorted_nil | apply Sorted_cons | apply HdRel_nil
      | apply HdRel_cons; cbn [rank snd]; lia ].
Qed.

Lemma rank_bound (k : ErrorType) : (rank k <= rank UNKNOWN)%nat.
Proof. destruct k; cbn; lia. Qed.

Lemma check_error_patterns_rank (table : list (string * ErrorType))
    (p : string) (k : ErrorType) (text : string) :
  Forall (fun row => (rank k <= rank (snd row))%nat) table ->
  (rank k <= rank (check_error_patterns table text))%nat.
Proof.
  induction 1 as [|[q kq] table Hq _ IH]; cbn [check_error_patterns].
  - apply rank_bound.
  - destruct (re_search_ignorecase q text); [exact Hq | exact IH].
Qed.

Lemma check_error_patterns_monotone (table : list (string * ErrorType))
    (text text' : string) :
  StronglySorted (fun a b => (rank (snd a) <= rank (snd b))%nat) table ->
  (forall p, re_search_ignorecase p text = true ->
             re_search_ignorecase p text' = true) ->
  (rank (check_error_patterns table text')
   <= rank (check_error_patterns table text))%nat.
Proof.
  intros Hsorted Himp.
  induction Hsorted as [|[p k] table _ IH Hall]; cbn [check_error_patterns].
  - lia.
  - destruct (re_search_ignorecase p text') eqn:Hp'.
    + destruct (re_search_ignorecase p text); [lia|].
      now apply (check_error_patterns_rank table p).
    + destruct (re_search_ignorecase p text) eqn:Hp.
      * rewrite (Himp p Hp) in Hp'. discriminate.
      * exact IH.
Qed.

(** Text around a message can only move its classification towards the
    front of the table.  For every message and every text put before and
    after it (a prefix such as "Error: ", a trailing stack trace), the kind
    of the longer message is the same or one declared earlier, in the order
    timeout, permission, network, rate limit, tool not found, parameters,
    resources, authentication, target, parsing, unknown.  So a message
    that is classified stays classified, and a timeout stays a timeout. *)
Theorem classify_error_monotone (before msg after : string)
    (exc : option PyException) :
  (rank (classify_error (before ++ msg ++ after) exc)
   <= rank (classify_error msg exc))%nat
  /\ (classify_error msg exc <> UNKNOWN ->
      classify_error (before ++ msg ++ after) exc <> UNKNOWN)
  /\ (classify_error msg exc = TIMEOUT ->
      classify_error (before ++ msg ++ after) exc = TIMEOUT).
Proof.
  assert (H : (rank (classify_error (before ++ msg ++ after) exc)
               <= rank (classify_error msg exc))%nat).
  { unfold classify_error.
    destruct (check_exception_type exc); [lia|].
    rewrite !lower_app.
    apply check_error_patterns_monotone; [apply error_patterns_ranked|].
    intros p. apply re_search_around. }
  split; [exact H|]. split.
  - intros Hk Hu. rewrite Hu in H.
    destruct (classify_error msg exc); cbn in H; try lia. congruence.
  - intros Hk. rewrite Hk in H.
    destruct (classify_error (before ++ msg ++ after) exc);
      cbn in H; try lia. reflexivity.
Qed.

(* --------------------------------------------------------------------- *)
(** ** What the facade proposes, and what the helpers then do             *)
(* --------------------------------------------------------------------- *)

(** From the first attempt on, some actions are proposed in few cases
    only: switching tools only on the first attempt at a tool that was not
    found, graceful degradation only on the first attempt at an
    unreachable target, and a parameter adjustment only for invalid
    parameters or a parsing error, never for a timeout, a rate limit or
    exhausted resources. *)
Theorem handle_tool_failure_rare_actions (env : Environment) (self : Handler)
    (tool : string) (error : PyException) (context : CallContext) :
  1 <= default 1 (context_attempt_count context) ->
  (action_of (fst (handle_tool_failure env self tool error context))
   = Ok SWITCH_TO_ALTERNATIVE_TOOL ->
   classify_error (exception_str error) (Some error) = TOOL_NOT_FOUND
   /\ default 1 (context_attempt_count context) = 1)
  /\ (action_of (fst (handle_tool_failure env self tool error context))
      = Ok GRACEFUL_DEGRADATION ->
      classify_error (exception_str error) (Some error) = TARGET_UNREACHABLE
      /\ default 1 (context_attempt_count context) = 1)
  /\ (action_of (fst (handle_tool_failure env self tool error context))
      = Ok ADJUST_PARAMETERS ->
      classify_error (exception_str error) (Some error) = INVALID_PARAMETERS
      \/ classify_error (exception_str error) (Some error) = PARSING_ERROR).
Proof.
  intros Hn. rewrite (facade_action env self tool error context Hn).
  set (k := classify_error _ _). set (n := default 1 _) in *.
  clearbody k n. unfold decision.
  split; [|split]; intros [= Hd]; revert Hd; destruct k;
    repeat match goal with
           | |- context [?a <=? ?b] => destruct (Z.leb_spec a b)
           end;
    intros Hd;
    first [ discriminate Hd | split; [reflexivity | lia]
          | left; reflexivity | right; reflexivity ].
Qed.

Lemma handle_tool_failure_rare_actions_witness :
  classify_error "nmap: command not found"
    (Some (plain_exception "nmap: command not found")) = TOOL_NOT_FOUND.
Proof.
  destruct (handle_tool_failure_rare_actions (mkEnvironment 0 "" ∅)
              init_handler "nmap" (plain_exception "nmap: command not found")
              (mkCallContext None None None)) as [H _]; [cbn; lia|].
  apply H. vm_compute. reflexivity.
Defined.

(** The adjustment that is proposed adjusts nothing: whenever the facade,
    from the first attempt on, proposes [ADJUST_PARAMETERS] for a failure,
    [auto_adjust_parameters] for the same tool and the classified kind
    returns every parameter map unchanged, since deltas exist only for
    kinds for which the adjustment is never proposed. *)
Theorem adjustment_proposed_is_identity (env : Environment) (self : Handler)
    (tool : string) (error : PyException) (context : CallContext)
    (params : gmap string pyval) :
  1 <= default 1 (context_attempt_count context) ->
  action_of (fst (handle_tool_failure env self tool error context))
  = Ok ADJUST_PARAMETERS ->
  auto_adjust_parameters tool
    (classify_error (exception_str error) (Some error)) params
  = params.
Proof.
  intros Hn. rewrite (facade_action env self tool error context Hn).
  set (k := classify_error _ _). set (n := default 1 _) in *.
  clearbody k n. intros [= Hd].
  apply auto_adjust_parameters_not_adjustable.
  revert Hd. unfold decision.
  destruct k;
    repeat match goal with
           | |- context [?a <=? ?b] => destruct (Z.leb_spec a b)
           end;
    intros Hd; try discriminate Hd; reflexivity.
Qed.

Lemma adjustment_proposed_is_identity_witness :
  auto_adjust_parameters "gobuster"
    (classify_error "invalid option -q"
       (Some (plain_exception "invalid option -q")))
    {[ "threads" := VStr "50" ]}
  = {[ "threads" := VStr "50" ]}.
Proof.
  apply (adjustment_proposed_is_identity (mkEnvironment 0 "" ∅) init_handler
           "gobuster" (plain_exception "invalid option -q")
           (mkCallContext None None None)).
  - cbn. lia.
  - vm_compute. reflexivity.
Defined.

(* ===================================================================== *)
(** * Properties in double precision                                      *)
(* ===================================================================== *)

(* --------------------------------------------------------------------- *)
(** ** The order of doubles                                               *)
(* --------------------------------------------------------------------- *)

Ltac compare_cases :=
  repeat match goal with
    | |- context [Z.compare ?a ?b] => destruct (Z.compare_spec a b)
    | |- context [Pos.compare ?a ?b] => destruct (Pos.compare_spec a b)
    | H : context [Z.compare ?a ?b] |- _ => destruct (Z.compare_spec a b)
    | H : context [Pos.compare ?a ?b] |- _ => destruct (Pos.compare_spec a b)
    end.

Lemma double_ltb_leb (x y : Double.double) :
  Double.ltb x y = true -> Double.leb x y = true.
Proof.
  unfold Double.ltb, Double.leb, SFltb, SFleb.
  destruct (SFcompare x y) as [[| |]|]; congruence.
Qed.

Lemma double_leb_total (x y : Double.double) :
  Double.is_nan x = false -> Double.is_nan y = false ->
  Double.ltb x y = false -> Double.leb y x = true.
Proof.
  unfold Double.ltb, Double.leb, SFltb, SFleb, SFcompare.
  destruct x as [sx|sx| |sx mx ex], y as [sy|sy| |sy my ey];
    cbn [Double.is_nan]; try discriminate;
    try destruct sx; try destruct sy; try reflexivity; try discriminate;
    intros _ _;
    change (Pos.compare_cont Eq) with Pos.compare;
    compare_cases; subst; cbn; try reflexivity; try discriminate; lia.
Qed.

Lemma double_leb_trans (x y z : Double.double) :
  Double.leb x y = true -> Double.leb y z = true -> Double.leb x z = true.
Proof.
  unfold Double.leb, SFleb, SFcompare.
  destruct x as [sx|sx| |sx mx ex], y as [sy|sy| |sy my ey],
           z as [sz|sz| |sz mz ez];
    try discriminate; try reflexivity;
    try destruct sx; try destruct sy; try destruct sz;
    try discriminate; try reflexivity;
    change (Pos.compare_cont Eq) with Pos.compare;
    compare_cases; subst; cbn; try reflexivity; try discriminate; lia.
Qed.

(* --------------------------------------------------------------------- *)
(** ** Selection in double precision                                      *)
(* --------------------------------------------------------------------- *)

Section DoubleSort.
Context {A : Type}.

Lemma double_insert_desc_Permutation (x : Double.double * A)
    (l : list (Double.double * A)) :
  Permutation (Double.insert_desc x l) (x :: l).
Proof.
  induction l as [|y l IH]; cbn [Double.insert_desc]; [reflexivity|].
  destruct (Double.ltb (fst x) (fst y)); [|reflexivity].
  rewrite IH. apply perm_swap.
Qed.

Lemma double_sort_desc_Permutation (l : list (Double.double * A)) :
  Permutation (Double.sort_desc l) l.
Proof.
  induction l as [|x l IH]; [reflexivity|].
  change (Double.sort_desc (x :: l))
    with (Double.insert_desc x (Double.sort_desc l)).
  now rewrite double_insert_desc_Permutation, IH.
Qed.

(** On keys that are not NaN the head of the sorted list is the first
    entry of largest key: what comes before it in the input is strictly
    smaller, what comes after is not larger. *)
Lemma double_sort_desc_head (l : list (Double.double * A)) :
  Forall (fun x => Double.is_nan (fst x) = false) l ->
  l <> [] ->
  exists best tail pre post,
    Double.sort_desc l = best :: tail
    /\ l = (pre ++ best :: post)%list
    /\ Forall (fun x => Double.ltb (fst x) (fst best) = true) pre
    /\ Forall (fun x => Double.leb (fst x) (fst best) = true) post.
Proof.
  induction l as [|a l IH]; [congruence|]. intros Hnan _.
  apply Forall_cons in Hnan as [Ha Hnan].
  destruct l as [|b l].
  - exists a, [], [], []. repeat split; constructor.
  - destruct (IH Hnan) as (best & tail & pre & post & Hs & Hl & Hpre & Hpost);
      [discriminate|].
    change (Double.sort_desc (a :: b :: l))
      with (Double.insert_desc a (Double.sort_desc (b :: l))).
    rewrite Hs. cbn [Double.insert_desc].
    destruct (Double.ltb (fst a) (fst best)) eqn:E.
    + exists best, (Double.insert_desc a tail), (a :: pre), post.
      repeat split; [now rewrite Hl | now constructor | assumption].
    + assert (Hbest : Double.is_nan (fst best) = false).
      { rewrite Forall_forall in Hnan. apply Hnan. rewrite Hl.
        apply elem_of_app. right. left. }
      pose proof (double_leb_total _ _ Ha Hbest E) as Hle.
      exists a, (best :: tail), [], (b :: l).
      repeat split; [constructor|]. rewrite Hl.
      apply Forall_app. split; [|constructor].
      * eapply Forall_impl; [exact Hpre|]. intros x Hx. cbn beta in Hx.
        eapply double_leb_trans; [apply double_ltb_leb, Hx | exact Hle].
      * exact Hle.
      * eapply Forall_impl; [exact Hpost|]. intros x Hx. cbn beta in Hx.
        eapply double_leb_trans; [exact Hx | exact Hle].
Qed.
End DoubleSort.

Section DoubleSelection.
Variable libm_pow : Double.double -> Double.double -> Double.double.

(** The scoring loop keeps the candidates, in order, each with its
    score. *)
Lemma score_all_inv (viable : list RecoveryStrategy) (attempts : Z)
    (scored : list (Double.double * RecoveryStrategy)) :
  Double.score_all libm_pow viable attempts = Ok scored ->
  map snd scored = viable
  /\ Forall (fun p => Double.score libm_pow (snd p) attempts = Ok (fst p))
            scored.
Proof.
  revert scored. induction viable as [|s viable IH]; intros scored.
  - intros [= <-]. split; constructor.
  - cbn [Double.score_all].
    destruct (Double.score libm_pow s attempts) as [d|e] eqn:Es;
      cbn [bind]; [|discriminate].
    destruct (Double.score_all libm_pow viable attempts) as [tail|e] eqn:Et;
      cbn [bind]; [|discriminate].
    intros [= <-]. destruct (IH _ eq_refl) as [Hm Hf].
    split; [cbn [map snd]; now rewrite Hm | now constructor].
Qed.

Lemma score_all_ok (viable : list RecoveryStrategy) (attempts : Z) :
  Forall (fun s => exists d, Double.score libm_pow s attempts = Ok d) viable ->
  exists scored, Double.score_all libm_pow viable attempts = Ok scored.
Proof.
  induction 1 as [|s viable [d Hd] _ [tail IH]].
  - now exists [].
  - exists ((d, s) :: tail). cbn [Double.score_all]. now rewrite Hd, IH.
Qed.

(** Whatever raises in the scoring raises [OverflowError]. *)
Lemma int_to_float_raises (n : Z) (e : PyError) :
  Double.int_to_float n = Raise e -> e = OverflowError.
Proof.
  unfold Double.int_to_float.
  destruct (Double.of_int n); intros [=]; congruence.
Qed.

Lemma float_pow_raises (v : Double.double) (w : Z) (e : PyError) :
  Double.float_pow libm_pow v w = Raise e -> e = OverflowError.
Proof.
  unfold Double.float_pow.
  destruct (Double.int_to_float w) as [iw|e'] eqn:Ew; cbn [bind].
  - destruct iw; try destruct (libm_pow v _); intros [=]; congruence.
  - intros [= <-]. eapply int_to_float_raises, Ew.
Qed.

Lemma score_raises (s : RecoveryStrategy) (attempts : Z) (e : PyError) :
  Double.score libm_pow s attempts = Raise e -> e = OverflowError.
Proof.
  unfold Double.score, Double.adjusted_probability.
  destruct (Double.float_pow libm_pow _ _) as [d|e'] eqn:Ep; cbn [bind].
  - destruct (Double.int_to_float (estimated_time s)) as [t|e'] eqn:Et;
      cbn [bind]; [discriminate|].
    intros [= <-]. eapply int_to_float_raises, Et.
  - intros [= <-]. eapply float_pow_raises, Ep.
Qed.

Lemma score_all_raises (viable : list RecoveryStrategy) (attempts : Z)
    (e : PyError) :
  Double.score_all libm_pow viable attempts = Raise e -> e = OverflowError.
Proof.
  induction viable as [|s viable IH]; cbn [Double.score_all]; [discriminate|].
  destruct (Double.score libm_pow s attempts) as [d|e'] eqn:Es; cbn [bind].
  - destruct (Double.score_all libm_pow viable attempts) as [tail|e'];
      cbn [bind]; [discriminate|].
    intros [= <-]. now apply IH.
  - intros [= <-]. eapply score_raises, Es.
Qed.

(** What selection can do: return the fabricated strategy, when nothing is
    within budget; return a candidate within budget; raise
    [OverflowError], and only while scoring. *)
Lemma double_select_cases (strategies : list RecoveryStrategy)
    (context : ErrorContext) :
  (Forall (fun s => max_attempts s < attempt_count context) strategies ->
   Double._select_best_strategy libm_pow strategies context
   = Ok (exhausted_strategy context))
  /\ (forall s,
        Double._select_best_strategy libm_pow strategies context = Ok s ->
        (s ∈ strategies /\ attempt_count context <= max_attempts s)
        \/ (s = exhausted_strategy context
            /\ Forall (fun s => max_attempts s < attempt_count context)
                      strategies))
  /\ (forall e,
        Double._select_best_strategy libm_pow strategies context = Raise e ->
        e = OverflowError
        /\ exists s, s ∈ strategies
                     /\ attempt_count context <= max_attempts s)
  /\ (Forall (fun s => attempt_count context <= max_attempts s ->
                exists d, Double.score libm_pow s (attempt_count context)
                          = Ok d) strategies ->
      exists s, Double._select_best_strategy libm_pow strategies context
                = Ok s).
Proof.
  unfold Double._select_best_strategy.
  set (P := fun s : RecoveryStrategy => attempt_count context <= max_attempts s).
  destruct (filter P strategies) as [|v viable] eqn:Hv.
  - repeat apply conj.
    + reflexivity.
    + intros s [= <-]. right. split; [reflexivity|].
      apply filter_nil_inv in Hv. eapply Forall_impl; [exact Hv|].
      intros x Hx. unfold P in Hx. lia.
    + discriminate.
    + intros _. eexists. reflexivity.
  - assert (Hin : forall s, s ∈ v :: viable -> s ∈ strategies /\ P s).
    { intros s Hs. rewrite <- Hv in Hs.
      apply list_elem_of_filter in Hs. tauto. }
    repeat apply conj.
    + intros Hall. exfalso. destruct (Hin v) as [Hv1 Hv2]; [left|].
      rewrite Forall_forall in Hall. specialize (Hall _ Hv1).
      unfold P in Hv2. lia.
    + intros s.
      destruct (Double.score_all libm_pow (v :: viable) (attempt_count context))
        as [scored|e] eqn:Es; cbn [bind]; [|discriminate].
      destruct (Double.sort_desc scored) as [|best tail] eqn:Eo;
        cbn [index0 bind]; [discriminate|].
      intros [= <-]. left. apply Hin.
      destruct (score_all_inv _ _ _ Es) as [Hm _]. rewrite <- Hm.
      apply list_elem_of_fmap. exists best. split; [reflexivity|].
      rewrite <- (double_sort_desc_Permutation scored), Eo. left.
    + intros e.
      destruct (Double.score_all libm_pow (v :: viable) (attempt_count context))
        as [scored|e'] eqn:Es; cbn [bind].
      * destruct (Double.sort_desc scored) as [|best tail] eqn:Eo;
          cbn [index0 bind]; [|discriminate].
        intros _. exfalso.
        pose proof (double_sort_desc_Permutation scored) as Hp.
        rewrite Eo in Hp. apply Permutation_nil in Hp.
        destruct (score_all_inv _ _ _ Es) as [Hm _].
        rewrite Hp in Hm. discriminate Hm.
      * intros [= <-]. split; [eapply score_all_raises, Es|].
        exists v. apply Hin. left.
    + intros Hsc.
      destruct (score_all_ok (v :: viable) (attempt_count context))
        as [scored Es].
      { apply Forall_forall. intros s Hs. destruct (Hin s Hs) as [H1 H2].
        rewrite Forall_forall in Hsc. exact (Hsc s H1 H2). }
      rewrite Es. cbn [bind].
      destruct (Double.sort_desc scored) as [|best tail] eqn:Eo;
        cbn [index0 bind]; [|eexists; reflexivity].
      exfalso.
      pose proof (double_sort_desc_Permutation scored) as Hp.
      rewrite Eo in Hp. apply Permutation_nil in Hp.
      destruct (score_all_inv _ _ _ Es) as [Hm _].
      rewrite Hp in Hm. discriminate Hm.
Qed.

End DoubleSelection.

(** C2 as stated fails where a score cannot be computed: a candidate
    within budget whose estimated time is too large for a double makes
    selection raise [OverflowError], at the first attempt and whatever
    [pow] is, instead of returning a candidate. *)
Lemma select_overflow_counterexample :
  [endless] <> []
  /\ Exists (fun s => attempt_count (context_of "nmap" 1) <= max_attempts s)
            [endless]
  /\ forall libm_pow : Double.double -> Double.double -> Double.double,
       Double._select_best_strategy libm_pow [endless] (context_of "nmap" 1)
       = Raise OverflowError.
Proof.
  split; [discriminate|]. split.
  - apply Exists_cons_hd. cbn. lia.
  - intros libm_pow. vm_compute. reflexivity.
Qed.

(** C2, amended.  With at least one candidate still within its attempt
    budget, and when the score of every candidate within budget is computed
    without [OverflowError] and is not NaN, selection returns a candidate
    [best] of the list that is within its budget, whose score is strictly
    above that of every within-budget candidate declared before it and at
    least that of every within-budget candidate declared after it: the
    earliest maximizer, in declared order, of the score over the candidates
    with [attempt_count <= max_attempts].  The score is
    [success_probability * 0.9 ** (attempt_count - 1)
     - estimated_time / 1000.0] in double precision: the power by [pow],
    product, quotient and difference each rounded. *)
Theorem select_first_maximum
    (libm_pow : Double.double -> Double.double -> Double.double)
    (strategies : list RecoveryStrategy) (context : ErrorContext) :
  strategies <> [] ->
  Exists (fun s => attempt_count context <= max_attempts s) strategies ->
  Forall (fun s => attempt_count context <= max_attempts s ->
            scorable libm_pow (attempt_count context) s) strategies ->
  exists best before after,
    Double._select_best_strategy libm_pow strategies context = Ok best
    /\ strategies = (before ++ best :: after)%list
    /\ attempt_count context <= max_attempts best
    /\ Forall (fun s => attempt_count context <= max_attempts s ->
                 scores libm_pow (attempt_count context) Double.ltb s best)
              before
    /\ Forall (fun s => attempt_count context <= max_attempts s ->
                 scores libm_pow (attempt_count context) Double.leb s best)
              after
    /\ forall s n,
         Double.score libm_pow s n
         = let! discount := Double.float_pow libm_pow nine_tenths (n - 1) in
           let! time := Double.int_to_float (estimated_time s) in
           Ok (Double.sub
                 (Double.mul (Double.of_decimal (success_probability s))
                             discount)
                 (Double.div time (Double.of_int 1000))).
Proof.
  intros _ Hex Hsc. unfold Double._select_best_strategy.
  set (P := fun s : RecoveryStrategy => attempt_count context <= max_attempts s).
  set (n := attempt_count context) in *.
  destruct (filter P strategies) as [|v viable] eqn:Hv.
  { exfalso. apply Exists_exists in Hex as (s & Hin & Hs).
    apply filter_nil_inv in Hv. rewrite Forall_forall in Hv.
    exact (Hv s Hin Hs). }
  assert (Hviable : Forall (scorable libm_pow n) (v :: viable)).
  { apply Forall_forall. intros s Hs. rewrite <- Hv in Hs.
    apply list_elem_of_filter in Hs as [HP Hs].
    rewrite Forall_forall in Hsc. exact (Hsc s Hs HP). }
  destruct (score_all_ok libm_pow (v :: viable) n) as [scored Es].
  { eapply Forall_impl; [exact Hviable|]. intros s (d & Hd & _). eauto. }
  destruct (score_all_inv libm_pow _ _ _ Es) as [Hm Hf].
  assert (Hnan : Forall (fun p : Double.double * RecoveryStrategy =>
                           Double.is_nan (fst p) = false) scored).
  { apply Forall_forall. intros p Hp.
    rewrite Forall_forall in Hf. specialize (Hf p Hp).
    assert (Hs : snd p ∈ v :: viable).
    { rewrite <- Hm. apply list_elem_of_fmap. now exists p. }
    rewrite Forall_forall in Hviable.
    destruct (Hviable _ Hs) as (d & Hd & Hn). congruence. }
  destruct (double_sort_desc_head scored Hnan)
    as (best & tail & pre & post & Hs & Hl & Hpre & Hpost).
  { intros ->. discriminate Hm. }
  rewrite Es. cbn [bind]. rewrite Hs. cbn [bind index0].
  assert (Hscore : forall p, p ∈ scored ->
                     Double.score libm_pow (snd p) n = Ok (fst p)).
  { rewrite Forall_forall in Hf. exact Hf. }
  rewrite Hl, map_app in Hm. cbn [map] in Hm. rewrite <- Hm in Hv.
  destruct (filter_split P _ _ _ _ Hv)
    as (before & after & -> & Hb & Ha & Hbest).
  exists (snd best), before, after.
  split; [reflexivity|]. split; [reflexivity|]. split; [exact Hbest|].
  assert (Hbs : Double.score libm_pow (snd best) n = Ok (fst best)).
  { apply Hscore. rewrite Hl. apply elem_of_app. right. left. }
  split; [|split].
  3: { intros s k. unfold Double.score, Double.adjusted_probability.
       fold nine_tenths.
       destruct (Double.float_pow libm_pow nine_tenths (k - 1)); reflexivity. }
  - apply Forall_forall. intros s Hin HPs.
    assert (Hs' : s ∈ map snd pre).
    { rewrite <- Hb. apply list_elem_of_filter. now split. }
    apply list_elem_of_fmap in Hs' as (p & -> & Hp).
    exists (fst p), (fst best). split; [|split; [exact Hbs|]].
    + apply Hscore. rewrite Hl. apply elem_of_app. now left.
    + rewrite Forall_forall in Hpre. now apply Hpre.
  - apply Forall_forall. intros s Hin HPs.
    assert (Hs' : s ∈ map snd post).
    { rewrite <- Ha. apply list_elem_of_filter. now split. }
    apply list_elem_of_fmap in Hs' as (p & -> & Hp).
    exists (fst p), (fst best). split; [|split; [exact Hbs|]].
    + apply Hscore. rewrite Hl. apply elem_of_app. right. now right.
    + rewrite Forall_forall in Hpost. now apply Hpost.
Qed.

Lemma select_first_maximum_witness :
  exists best before after,
    Double._select_best_strategy sample_pow [tie_first; tie_second]
      (context_of "nmap" 1) = Ok best
    /\ [tie_first; tie_second] = (before ++ best :: after)%list
    /\ attempt_count (context_of "nmap" 1) <= max_attempts best
    /\ Forall (fun s => attempt_count (context_of "nmap" 1) <= max_attempts s ->
                 scores sample_pow (attempt_count (context_of "nmap" 1))
                   Double.ltb s best) before
    /\ Forall (fun s => attempt_count (context_of "nmap" 1) <= max_attempts s ->
                 scores sample_pow (attempt_count (context_of "nmap" 1))
                   Double.leb s best) after
    /\ forall s n,
         Double.score sample_pow s n
         = let! discount := Double.float_pow sample_pow nine_tenths (n - 1) in
           let! time := Double.int_to_float (estimated_time s) in
           Ok (Double.sub
                 (Double.mul (Double.of_decimal (success_probability s))
                             discount)
                 (Double.div time (Double.of_int 1000))).
Proof.
  apply (select_first_maximum sample_pow [tie_first; tie_second]
           (context_of "nmap" 1)).
  - discriminate.
  - apply Exists_cons_hd. simpl. lia.
  - repeat constructor; intros _;
      (eexists; split; [vm_compute; reflexivity | reflexivity]).
Defined.

(** On a tie the candidate declared first is returned; so it is when two
    scores that differ as rationals round to the same double, where the
    exact reading returns the candidate of larger score. *)
Example double_select_tie_keeps_declared_order :
  Double._select_best_strategy sample_pow [tie_first; tie_second]
    (context_of "nmap" 1) = Ok tie_first
  /\ Double._select_best_strategy sample_pow [tie_second; tie_first]
       (context_of "nmap" 1) = Ok tie_second
  /\ (score tie_first 1 < score nearly_tied 1)%Q
  /\ Double.score sample_pow tie_first 1 = Double.score sample_pow nearly_tied 1
  /\ Double._select_best_strategy sample_pow [tie_first; nearly_tied]
       (context_of "nmap" 1) = Ok tie_first
  /\ _select_best_strategy [tie_first; nearly_tied] (context_of "nmap" 1)
     = Ok nearly_tied.
Proof. repeat apply conj; vm_compute; reflexivity. Qed.

(* --------------------------------------------------------------------- *)
(** ** The discount in double precision                                   *)
(* --------------------------------------------------------------------- *)

Section Discount.
Variable libm_pow : Double.double -> Double.double -> Double.double.



Hypothesis libm_accurate : accurate libm_pow = true.

Lemma libm_pow_discounts (k : Z) :
  1 <= k <= 4 -> libm_pow nine_tenths (Double.of_int k) ∈ discounts k.
Proof.
  intros Hk. pose proof libm_accurate as H. unfold accurate in H.
  cbn [forallb] in H. rewrite !andb_true_iff in H.
  destruct H as (H1 & H2 & H3 & H4 & _).
  assert (E : k = 1 \/ k = 2 \/ k = 3 \/ k = 4) by lia.
  destruct E as [-> | [-> | [-> | ->]]];
    eapply bool_decide_eq_true_1; eassumption.
Qed.





End Discount.

Lemma sample_pow_accurate : accurate sample_pow = true.
Proof. vm_compute. reflexivity. Qed.




(* --------------------------------------------------------------------- *)
(** ** The facade in double precision                                     *)
(* --------------------------------------------------------------------- *)

Section DoubleFacade.
Variable libm_pow : Double.double -> Double.double -> Double.double.

(** The facade is classification, then recording, then selection among the
    catalog entry of the kind; the [KeyError] of the catalog lookups cannot
    occur. *)
Lemma double_handle_tool_failure_unfold (env : Environment) (self : Handler)
    (tool : string) (error : PyException) (context : CallContext) :
  Double.handle_tool_failure libm_pow env self tool error context
  = (Double._select_best_strategy libm_pow
       (catalog (error_type (incident_of env tool error context)))
       (incident_of env tool error context),
     _add_to_history self (incident_of env tool error context)).
Proof.
  unfold Double.handle_tool_failure, incident_of. cbn [error_type].
  set (k := classify_error _ _). clearbody k.
  unfold dict_index. rewrite (catalog_declared UNKNOWN), (catalog_declared k).
  reflexivity.
Qed.

(** [pow] is consulted at one point only: the base 0.9 and the attempt
    count less one. *)
Lemma float_pow_ext (libm_pow' : Double.double -> Double.double -> Double.double)
    (v : Double.double) (k : Z) :
  libm_pow v (Double.of_int k) = libm_pow' v (Double.of_int k) ->
  Double.float_pow libm_pow v k = Double.float_pow libm_pow' v k.
Proof.
  unfold Double.float_pow, Double.int_to_float.
  destruct (Double.of_int k); cbn [bind]; intros H;
    try rewrite H; reflexivity.
Qed.

Lemma score_all_ext (libm_pow' : Double.double -> Double.double -> Double.double)
    (l : list RecoveryStrategy) (n : Z) :
  libm_pow nine_tenths (Double.of_int (n - 1))
  = libm_pow' nine_tenths (Double.of_int (n - 1)) ->
  Double.score_all libm_pow l n = Double.score_all libm_pow' l n.
Proof.
  intros H. induction l as [|s l IH]; [reflexivity|].
  cbn [Double.score_all]. rewrite IH.
  unfold Double.score, Double.adjusted_probability. fold nine_tenths.
  now rewrite (float_pow_ext libm_pow' nine_tenths (n - 1) H).
Qed.

Lemma double_select_ext
    (libm_pow' : Double.double -> Double.double -> Double.double)
    (strategies : list RecoveryStrategy) (context : ErrorContext) :
  libm_pow nine_tenths (Double.of_int (attempt_count context - 1))
  = libm_pow' nine_tenths (Double.of_int (attempt_count context - 1)) ->
  Double._select_best_strategy libm_pow strategies context
  = Double._select_best_strategy libm_pow' strategies context.
Proof.
  intros H. unfold Double._select_best_strategy.
  now rewrite (score_all_ext libm_pow' _ _ H).
Qed.

(** At the first attempt every declared candidate is scored: [pow] is not
    called and no estimated time is out of range. *)
Lemma catalog_scored_at_first (k : ErrorType) (s : RecoveryStrategy) :
  s ∈ catalog k -> exists d, Double.score libm_pow s 1 = Ok d.
Proof.
  intros Hin.
  assert (H : scored_at_first s = true).
  { revert k s Hin. apply catalog_forallb.
    intros k. destruct k; vm_compute; reflexivity. }
  unfold scored_at_first in H.
  assert (E : Double.score libm_pow s 1
              = Double.score (constant_pow S754_nan) s 1).
  { unfold Double.score, Double.adjusted_probability. reflexivity. }
  rewrite E. destruct (Double.score _ s 1); [eauto | discriminate].
Qed.

Lemma catalog_not_empty (k : ErrorType) : catalog k <> [].
Proof. destruct k; discriminate. Qed.

Lemma catalog_exhausted (k : ErrorType) (n : Z) :
  5 < n -> Forall (fun s => max_attempts s < n) (catalog k).
Proof.
  intros Hn. apply Forall_forall. intros s Hin.
  apply catalog_budget in Hin. lia.
Qed.

Lemma catalog_not_exhausted (k : ErrorType) (n : Z) :
  n <= 1 -> ~ Forall (fun s => max_attempts s < n) (catalog k).
Proof.
  intros Hn Hall. pose proof (catalog_not_empty k) as Hne.
  destruct (catalog k) as [|c l] eqn:Hc; [congruence|].
  apply Forall_cons in Hall as [Hlt _].
  assert (Hin : c ∈ catalog k) by (rewrite Hc; left).
  apply catalog_budget in Hin. lia.
Qed.

(** Selection from a catalog entry at the first attempt raises nothing. *)
Lemma double_select_first_attempt (k : ErrorType) (context : ErrorContext) :
  attempt_count context = 1 ->
  exists s, Double._select_best_strategy libm_pow (catalog k) context = Ok s.
Proof.
  intros Hn.
  apply (double_select_cases libm_pow (catalog k) context).
  apply Forall_forall. intros s Hin _. rewrite Hn.
  exact (catalog_scored_at_first k s Hin).
Qed.

(** With an accurate [pow], selection from a catalog entry agrees with its
    exact reading from the first attempt on. *)
Lemma double_select_exact (k : ErrorType) (context : ErrorContext) :
  accurate libm_pow = true ->
  1 <= attempt_count context ->
  Double._select_best_strategy libm_pow (catalog k) context
  = _select_best_strategy (catalog k) context.
Proof.
  intros Hacc Hn.
  destruct (Z_le_gt_dec (attempt_count context) 5) as [H5|H5].
  - set (d := libm_pow nine_tenths (Double.of_int (attempt_count context - 1))).
    rewrite (double_select_ext (constant_pow d) (catalog k) context eq_refl).
    rewrite (select_reads_tool_and_attempts (catalog k) context).
    change (Double._select_best_strategy (constant_pow d) (catalog k) context)
      with (Double._select_best_strategy (constant_pow d) (catalog k)
              (context_of (tool_name context) (attempt_count context))).
    assert (Hd : attempt_count context = 1
                 \/ d ∈ discounts (attempt_count context - 1)).
    { destruct (Z.eq_dec (attempt_count context) 1) as [E|E]; [now left|].
      right. apply (libm_pow_discounts libm_pow Hacc). lia. }
    clearbody d. generalize dependent (tool_name context).
    generalize dependent (attempt_count context).
    clear context. intros n Hn H5 Hd tool.
    assert (E : n = 1 \/ n = 2 \/ n = 3 \/ n = 4 \/ n = 5) by lia.
    destruct Hd as [-> | Hd]; [destruct k; vm_compute; reflexivity|].
    destruct E as [-> | [-> | [-> | [-> | ->]]]];
      [destruct k; vm_compute; reflexivity | | | |];
      match type of Hd with
      | _ ∈ discounts ?j =>
          let l := fresh "l" in
          set (l := discounts j) in Hd; vm_compute in l; subst l
      end;
      repeat match goal with
        | H : _ ∈ _ :: _ |- _ => apply elem_of_cons in H as [-> | H]
        end;
      try (inversion Hd; fail);
      destruct k; vm_compute; reflexivity.
  - rewrite select_all_exhausted by (apply catalog_exhausted; lia).
    apply (double_select_cases libm_pow (catalog k) context).
    apply catalog_exhausted. lia.
Qed.

End DoubleFacade.

(** What the facade can do.  A strategy it returns is a candidate of the
    catalog entry of the classified kind that is within its attempt budget,
    or, when every candidate of that entry is out of budget, the fabricated
    escalation.  The one exception it can raise is [OverflowError], from the
    power [0.9 ** (attempt_count - 1)], and neither at the first attempt nor
    beyond the fifth; the [KeyError] of the catalog lookups and the
    [IndexError] of the empty list cannot occur.  With [pow] accurate to one
    unit in the last place it raises nothing from the first attempt on.  The
    incident is recorded in every case. *)
Theorem handle_tool_failure_outcome
    (libm_pow : Double.double -> Double.double -> Double.double)
    (env : Environment) (self : Handler)
    (tool : string) (error : PyException) (context : CallContext) :
  (forall s,
      fst (Double.handle_tool_failure libm_pow env self tool error context)
      = Ok s ->
      (s ∈ catalog (classify_error (exception_str error) (Some error))
       /\ default 1 (context_attempt_count context) <= max_attempts s)
      \/ (s = exhausted_strategy (incident_of env tool error context)
          /\ Forall (fun c => max_attempts c
                              < default 1 (context_attempt_count context))
               (catalog (classify_error (exception_str error)
                           (Some error)))))
  /\ (forall e,
        fst (Double.handle_tool_failure libm_pow env self tool error context)
        = Raise e ->
        e = OverflowError
        /\ default 1 (context_attempt_count context) <> 1
        /\ default 1 (context_attempt_count context) <= 5)
  /\ (default 1 (context_attempt_count context) = 1 ->
      exists s,
        fst (Double.handle_tool_failure libm_pow env self tool error context)
        = Ok s)
  /\ (accurate libm_pow = true ->
      1 <= default 1 (context_attempt_count context) ->
      exists s,
        fst (Double.handle_tool_failure libm_pow env self tool error context)
        = Ok s)
  /\ snd (Double.handle_tool_failure libm_pow env self tool error context)
     = _add_to_history self (incident_of env tool error context).
Proof.
  rewrite double_handle_tool_failure_unfold. cbn [fst snd].
  set (inc := incident_of env tool error context).
  change (classify_error (exception_str error) (Some error))
    with (error_type inc).
  change (default 1 (context_attempt_count context))
    with (attempt_count inc).
  destruct (double_select_cases libm_pow (catalog (error_type inc)) inc)
    as (Hex & Hok & Hraise & _).
  split; [exact Hok|]. split; [|split; [|split; [|reflexivity]]].
  - intros e He. split; [exact (proj1 (Hraise e He))|].
    split.
    + intros H1.
      destruct (double_select_first_attempt libm_pow (error_type inc) inc H1)
        as [s Hs].
      congruence.
    + destruct (Z_le_gt_dec (attempt_count inc) 5) as [H5|H5]; [exact H5|].
      rewrite Hex in He by (apply catalog_exhausted; lia). discriminate He.
  - apply double_select_first_attempt.
  - intros Hacc Hn. rewrite (double_select_exact libm_pow _ _ Hacc Hn).
    destruct (select_cases (catalog (error_type inc)) inc) as (s & Hs & _).
    now exists s.
Qed.

(** Every strategy the facade returns keeps the bounds of the data model
    (at least one attempt, a backoff multiplier of at least 1, a success
    probability between 0 and 1, a time that is not negative), and its
    action is never [ABORT_OPERATION]. *)
Theorem handle_tool_failure_returns_well_formed
    (libm_pow : Double.double -> Double.double -> Double.double)
    (env : Environment) (self : Handler)
    (tool : string) (error : PyException) (context : CallContext)
    (s : RecoveryStrategy) :
  fst (Double.handle_tool_failure libm_pow env self tool error context)
  = Ok s ->
  1 <= max_attempts s
  /\ (1 <= backoff_multiplier s)%Q
  /\ (0 <= success_probability s <= 1)%Q
  /\ 0 <= estimated_time s
  /\ action s <> ABORT_OPERATION.
Proof.
  rewrite double_handle_tool_failure_unfold. cbn [fst]. intros Hs.
  destruct (double_select_cases libm_pow
              (catalog (error_type (incident_of env tool error context)))
              (incident_of env tool error context))
    as (_ & Hok & _).
  assert (Hwf : well_formed s = true).
  { destruct (Hok s Hs) as [[Hin _] | [-> _]].
    - exact (catalog_well_formed _ _ Hin).
    - reflexivity. }
  unfold well_formed in Hwf.
  repeat (apply andb_true_iff in Hwf as [Hwf ?]).
  repeat split.
  - now apply Z.leb_le.
  - now apply Qle_bool_iff.
  - now apply Qle_bool_iff.
  - now apply Qle_bool_iff.
  - now apply Z.leb_le.
  - intros E. rewrite bool_decide_eq_true_2 in H by exact E. discriminate.
Qed.

Lemma handle_tool_failure_returns_well_formed_witness :
  1 <= max_attempts timeout_reduced_scope
  /\ (1 <= backoff_multiplier timeout_reduced_scope)%Q
  /\ (0 <= success_probability timeout_reduced_scope <= 1)%Q
  /\ 0 <= estimated_time timeout_reduced_scope
  /\ action timeout_reduced_scope <> ABORT_OPERATION.
Proof.
  apply (handle_tool_failure_returns_well_formed sample_pow
           (mkEnvironment 0 "" ∅) init_handler "nmap"
           (plain_exception "connection timed out")
           (mkCallContext None None (Some 2)) timeout_reduced_scope).
  vm_compute. reflexivity.
Defined.

(** The retry budget of the facade.  At the first attempt (an attempt count
    of 1, which is also what a missing count defaults to) the facade returns
    a strategy of the catalog entry of the kind.  Up to the first attempt,
    what it returns comes from that entry.  Beyond the fifth attempt it
    returns the fabricated escalation to a human, for every kind of
    failure. *)
Theorem handle_tool_failure_retry_budget
    (libm_pow : Double.double -> Double.double -> Double.double)
    (env : Environment) (self : Handler)
    (tool : string) (error : PyException) (context : CallContext) :
  (default 1 (context_attempt_count context) = 1 ->
   exists s,
     fst (Double.handle_tool_failure libm_pow env self tool error context)
     = Ok s
     /\ s ∈ catalog (classify_error (exception_str error) (Some error)))
  /\ (context_attempt_count context = None ->
      exists s,
        fst (Double.handle_tool_failure libm_pow env self tool error context)
        = Ok s
        /\ s ∈ catalog (classify_error (exception_str error) (Some error)))
  /\ (default 1 (context_attempt_count context) <= 1 ->
      forall s,
        fst (Double.handle_tool_failure libm_pow env self tool error context)
        = Ok s ->
        s ∈ catalog (classify_error (exception_str error) (Some error)))
  /\ (5 < default 1 (context_attempt_count context) ->
      fst (Double.handle_tool_failure libm_pow env self tool error context)
      = Ok (exhausted_strategy (incident_of env tool error context))).
Proof.
  rewrite double_handle_tool_failure_unfold. cbn [fst].
  set (inc := incident_of env tool error context).
  change (classify_error (exception_str error) (Some error))
    with (error_type inc).
  change (default 1 (context_attempt_count context))
    with (attempt_count inc).
  destruct (double_select_cases libm_pow (catalog (error_type inc)) inc)
    as (Hex & Hok & _ & _).
  assert (Hmember : attempt_count inc <= 1 -> forall s,
            Double._select_best_strategy libm_pow (catalog (error_type inc)) inc
            = Ok s -> s ∈ catalog (error_type inc)).
  { intros Hn s Hs. destruct (Hok s Hs) as [[Hin _] | [_ Hall]]; [exact Hin|].
    exfalso. exact (catalog_not_exhausted _ _ Hn Hall). }
  assert (Hfirst : attempt_count inc = 1 -> exists s,
            Double._select_best_strategy libm_pow (catalog (error_type inc)) inc
            = Ok s /\ s ∈ catalog (error_type inc)).
  { intros Hn.
    destruct (double_select_first_attempt libm_pow (error_type inc) inc Hn)
      as [s Hs].
    exists s. split; [exact Hs|]. apply Hmember; [lia | exact Hs]. }
  split; [exact Hfirst|]. split; [|split; [exact Hmember|]].
  - intros Hnone. apply Hfirst.
    cbn [attempt_count inc incident_of]. now rewrite Hnone.
  - intros Hn. apply Hex, catalog_exhausted, Hn.
Qed.

(** With [pow] accurate to one unit in the last place, the facade in
    double precision returns, from the first attempt on, exactly what its
    exact reading returns: rounding changes no decision on the declared
    catalog. *)
Theorem handle_tool_failure_exact
    (libm_pow : Double.double -> Double.double -> Double.double)
    (env : Environment) (self : Handler)
    (tool : string) (error : PyException) (context : CallContext) :
  accurate libm_pow = true ->
  1 <= default 1 (context_attempt_count context) ->
  Double.handle_tool_failure libm_pow env self tool error context
  = handle_tool_failure env self tool error context.
Proof.
  intros Hacc Hn.
  rewrite double_handle_tool_failure_unfold, handle_tool_failure_unfold.
  now rewrite (double_select_exact libm_pow _
                 (incident_of env tool error context) Hacc Hn).
Qed.

Lemma handle_tool_failure_exact_witness :
  Double.handle_tool_failure sample_pow (mkEnvironment 0 "" ∅) init_handler
    "gobuster" (plain_exception "rate limit exceeded (429)")
    (mkCallContext None None (Some 3))
  = handle_tool_failure (mkEnvironment 0 "" ∅) init_handler
      "gobuster" (plain_exception "rate limit exceeded (429)")
      (mkCallContext None None (Some 3)).
Proof.
  apply (handle_tool_failure_exact sample_pow (mkEnvironment 0 "" ∅)
           init_handler "gobuster"
           (plain_exception "rate limit exceeded (429)")
           (mkCallContext None None (Some 3))).
  - vm_compute. reflexivity.
  - cbn. lia.
Defined.
